(** * switchyard.lib.common: interfaces and the low-level network base class

    A shallow embedding of [switchyard/lib/common.py]: the [Interface]
    record with its coercing address setters, and the [LLNetBase] device
    registry with its lookups by name, IP address and MAC address.

    Python objects that are shared and mutated in place (the [devinfo]
    dict of a node, the [Interface] objects it refers to) live in an
    explicit store; methods are computations in a small state-and-exception
    monad over that store. *)

From Stdlib Require Import ZArith Lia Ascii String.
From stdpp Require Import base option list strings gmap pretty.

Open Scope Z_scope.

(** ** Exceptions and results *)

(** The exception classes of [common.py], followed by the exceptions that
    come from the Python runtime and from [switchyard.lib.address]. *)
Inductive exn : Type :=
  | SwitchyException (msg : string)
  | Shutdown
  | NoPackets
  | ScenarioFailure
  | AddressFormatError
  | AttributeError (msg : string)
  | IndexError
  | KeyError (key : string).

Inductive result (A : Type) : Type :=
  | Ok (a : A)
  | Raise (e : exn).
Arguments Ok {A} a.
Arguments Raise {A} e.

Definition result_bind {A B} (r : result A) (k : A -> result B) : result B :=
  match r with
  | Ok a => k a
  | Raise e => Raise e
  end.

(** ** Typed addresses *)

(** Modelled from the spec: the address wrappers of [switchyard.lib.address],
    which is imported by [common.py] but is not part of the sources at hand.
    A MAC address wraps 48 bits and an IPv4 address wraps 32 bits. *)
Record EthAddr : Type := MkEthAddr { eth_raw : Z }.
Record IPAddr : Type := MkIPAddr { ip_raw : Z }.

(** ** Python values

    The values that reach the address setters and the lookups: the two
    typed addresses, [str], [None], [int], and an object of any other
    class, of which only the identity and the [str()] rendering matter. *)
Inductive value : Type :=
  | VNone
  | VStr (s : string)
  | VInt (n : Z)
  | VEth (e : EthAddr)
  | VIP (a : IPAddr)
  | VObj (id : nat) (repr : string).

Definition isinstance_EthAddr (v : value) : bool :=
  match v with VEth _ => true | _ => false end.
Definition isinstance_IPAddr (v : value) : bool :=
  match v with VIP _ => true | _ => false end.
Definition isinstance_str (v : value) : bool :=
  match v with VStr _ => true | _ => false end.
Definition is_None (v : value) : bool :=
  match v with VNone => true | _ => false end.

(** The operations [common.py] uses from [switchyard.lib.address]: the two
    constructors (which accept any value and may raise), the string
    rendering of each address type and their [__eq__] methods, where [None]
    stands for Python's [NotImplemented]. *)
Class AddressLib : Type := {
  EthAddr_new : value -> result EthAddr;
  IPAddr_new : value -> result IPAddr;
  EthAddr_str : EthAddr -> string;
  IPAddr_str : IPAddr -> string;
  EthAddr_eq : EthAddr -> value -> option bool;
  IPAddr_eq : IPAddr -> value -> option bool
}.

(** ** Python builtins *)

(** [tmpl.format(args...)] for templates whose only braces are those of
    the automatic field [{}], as in every template of [common.py]. Too few
    arguments raise [IndexError]; surplus arguments are ignored, as in
    Python; the arguments themselves are not scanned. *)
Fixpoint py_format (tmpl : string) (args : list string) : result string :=
  match tmpl with
  | EmptyString => Ok EmptyString
  | String "{"%char (String "}"%char rest) =>
      match args with
      | [] => Raise IndexError
      | a :: args' => result_bind (py_format rest args') (fun r => Ok (a +:+ r))
      end
  | String c rest => result_bind (py_format rest args) (fun r => Ok (String c r))
  end.

Section PythonValues.
Context `{AL : AddressLib}.

(** [str(v)] *)
Definition py_str (v : value) : string :=
  match v with
  | VNone => "None"
  | VStr s => s
  | VInt n => pretty n
  | VEth e => EthAddr_str e
  | VIP a => IPAddr_str a
  | VObj _ repr => repr
  end.

(** [type(a).__eq__(a, b)] *)
Definition eq_method (a b : value) : option bool :=
  match a with
  | VEth e => EthAddr_eq e b
  | VIP i => IPAddr_eq i b
  | VStr s => match b with VStr t => Some (String.eqb s t) | _ => None end
  | VInt x => match b with VInt y => Some (Z.eqb x y) | _ => None end
  | VNone => match b with VNone => Some true | _ => None end
  | VObj _ _ => None
  end.

(** [a is b], for the operands that reach the fallback of [==]: objects
    of other classes by their identity; values of two different builtin or
    address types are never the same object. *)
Definition py_is (a b : value) : bool :=
  match a, b with
  | VObj i _, VObj j _ => Nat.eqb i j
  | _, _ => false
  end.

(** [a == b]: the method of the left operand, then the reflected method
    of the right one, then identity. *)
Definition py_eq (a b : value) : bool :=
  match eq_method a b with
  | Some r => r
  | None => match eq_method b a with
            | Some r => r
            | None => py_is a b
            end
  end.
End PythonValues.

(** ** class Interface *)

Record Interface : Type := MkInterface {
  name : value;
  ethaddr : value;
  ipaddr : value;
  netmask : value
}.

Global Instance Interface_inhabited : Inhabited Interface :=
  populate (MkInterface VNone VNone VNone VNone).

(** The object after one of its address fields has been rebound. *)
Definition with_ethaddr (self : Interface) (x : value) : Interface :=
  MkInterface (name self) x (ipaddr self) (netmask self).
Definition with_ipaddr (self : Interface) (x : value) : Interface :=
  MkInterface (name self) (ethaddr self) x (netmask self).
Definition with_netmask (self : Interface) (x : value) : Interface :=
  MkInterface (name self) (ethaddr self) (ipaddr self) x.

Definition result_map {A B} (f : A -> B) (r : result A) : result B :=
  result_bind r (fun a => Ok (f a)).

(** The three address fields of an interface. *)
Inductive address_field : Type := FEthaddr | FIpaddr | FNetmask.

(** [self'] holds [x] in the field [f], and in its name and its other two
    address fields what [self] holds there. *)
Definition holds (f : address_field) (self self' : Interface) (x : value) : Prop :=
  name self' = name self /\
  match f with
  | FEthaddr =>
      ethaddr self' = x /\ ipaddr self' = ipaddr self /\ netmask self' = netmask self
  | FIpaddr =>
      ethaddr self' = ethaddr self /\ ipaddr self' = x /\ netmask self' = netmask self
  | FNetmask =>
      ethaddr self' = ethaddr self /\ ipaddr self' = ipaddr self /\ netmask self' = x
  end.

(** The four-way rule an address setter follows, for the field [f], whose
    typed values are recognised by [typed], whose constructor is [new] and
    whose default is the literal [dflt]: what the object holds after the
    assignment, read from its fields. *)
Definition coercion_rule (typed : value -> bool) (new : value -> result value)
    (dflt : string) (setter : Interface -> value -> result Interface)
    (f : address_field) : Prop :=
  forall self : Interface,
    (forall v, typed v = true ->
       exists self', setter self v = Ok self' /\ holds f self self' v) /\
    (forall s t, new (VStr s) = Ok t ->
       typed t = true /\
       exists self', setter self (VStr s) = Ok self' /\ holds f self self' t) /\
    (forall s, new (VStr s) = Raise AddressFormatError ->
       setter self (VStr s) = Raise AddressFormatError) /\
    (exists self', setter self VNone = Ok self' /\ holds f self self' (VStr dflt)) /\
    (forall v, typed v = false -> isinstance_str v = false -> is_None v = false ->
       exists self', setter self v = Ok self' /\ holds f self self' v).

Section InterfaceMethods.
Context `{AL : AddressLib}.

(** [@ethaddr.setter] *)
Definition set_ethaddr (self : Interface) (v : value) : result Interface :=
  if isinstance_EthAddr v then
    Ok (with_ethaddr self v)
  else if isinstance_str v then
    result_bind (EthAddr_new v) (fun e =>
      Ok (with_ethaddr self (VEth e)))
  else if is_None v then
    Ok (with_ethaddr self (VStr "00:00:00:00:00:00"))
  else
    Ok (with_ethaddr self v).

(** [@ipaddr.setter] *)
Definition set_ipaddr (self : Interface) (v : value) : result Interface :=
  if isinstance_IPAddr v then
    Ok (with_ipaddr self v)
  else if isinstance_str v then
    result_bind (IPAddr_new v) (fun a =>
      Ok (with_ipaddr self (VIP a)))
  else if is_None v then
    Ok (with_ipaddr self (VStr "0.0.0.0"))
  else
    Ok (with_ipaddr self v).

(** [@netmask.setter] *)
Definition set_netmask (self : Interface) (v : value) : result Interface :=
  if isinstance_IPAddr v then
    Ok (with_netmask self v)
  else if isinstance_str v then
    result_bind (IPAddr_new v) (fun a =>
      Ok (with_netmask self (VIP a)))
  else if is_None v then
    Ok (with_netmask self (VStr "255.255.255.255"))
  else
    Ok (with_netmask self v).

(** [Interface.__init__]: the private name is bound first, then the three
    addresses go through their setters in turn; an exception from a setter
    leaves no object behind. The fields other than the name are unset
    until their setter has run. *)
Definition Interface_init (n e i m : value) : result Interface :=
  result_bind (set_ethaddr (MkInterface n VNone VNone VNone) e) (fun self =>
  result_bind (set_ipaddr self i) (fun self =>
  set_netmask self m)).

(** [Interface.__str__] *)
Definition Interface_str (self : Interface) : result string :=
  py_format "{} mac:{} ip:{}/{}"
    [py_str (name self); py_str (ethaddr self);
     py_str (ipaddr self); py_str (netmask self)].

(** Attribute assignment [self.attr = v] from outside the class. [name]
    is a property with a getter only, so assigning it raises; the three
    addresses dispatch to their setters. *)
Inductive attr : Type := AName | AEthaddr | AIpaddr | ANetmask.

Definition Interface_setattr (self : Interface) (a : attr) (v : value)
  : result Interface :=
  match a with
  | AName => Raise (AttributeError "can't set attribute")
  | AEthaddr => set_ethaddr self v
  | AIpaddr => set_ipaddr self v
  | ANetmask => set_netmask self v
  end.

(** What a client can do to an [Interface] it holds. *)
Inductive iface_op : Type :=
  | OpAssign (a : attr) (v : value)
  | OpStr.

(** One operation on the object: an exception leaves it as it was. *)
Definition iface_step (self : Interface) (op : iface_op) : Interface :=
  match op with
  | OpAssign a v =>
      match Interface_setattr self a v with
      | Ok self' => self'
      | Raise _ => self
      end
  | OpStr => self
  end.

Definition iface_run (ops : list iface_op) (self : Interface) : Interface :=
  fold_left iface_step ops self.
End InterfaceMethods.

(** ** The store *)

(** A reference to a Python object. *)
Abbreviation loc := positive (only parsing).

(** A Python [dict] with [str] keys, as the list of its items in insertion
    order (the order in which [values()] and [items()] enumerate them). *)
Abbreviation dict V := (list (string * V)) (only parsing).

Fixpoint dict_get {V} (k : string) (d : dict V) : option V :=
  match d with
  | [] => None
  | (k', v) :: rest => if String.eqb k' k then Some v else dict_get k rest
  end.

(** [k in d] *)
Definition dict_contains {V} (k : string) (d : dict V) : bool :=
  match dict_get k d with Some _ => true | None => false end.

(** [d[k]] *)
Definition dict_getitem {V} (k : string) (d : dict V) : result V :=
  match dict_get k d with Some v => Ok v | None => Raise (KeyError k) end.

(** [d[k] = v]: an existing key keeps its position, a new key goes last. *)
Fixpoint dict_setitem {V} (k : string) (v : V) (d : dict V) : dict V :=
  match d with
  | [] => [(k, v)]
  | (k', v') :: rest =>
      if String.eqb k' k then (k', v) :: rest
      else (k', v') :: dict_setitem k v rest
  end.

(** [del d[k]], once the key is known to be present. *)
Fixpoint dict_remove {V} (k : string) (d : dict V) : dict V :=
  match d with
  | [] => []
  | (k', v') :: rest =>
      if String.eqb k' k then rest else (k', v') :: dict_remove k rest
  end.

Definition dict_keys {V} (d : dict V) : list string := map fst d.
Definition dict_values {V} (d : dict V) : list V := map snd d.

(** The store holds the [Interface] objects and the [dict] objects, each
    kind under its own references. Dereferencing is total: a reference that
    was never allocated reads as the default object, which no Python program
    can observe. *)
Record store : Type := MkStore {
  ifaces : gmap loc Interface;
  dicts : gmap loc (list (string * loc))
}.

Definition empty_store : store := MkStore ∅ ∅.

(** Computations that read and write the store and may raise. An exception
    keeps the store as it was when it was raised. *)
Definition M (A : Type) : Type := store -> result A * store.

Definition ret {A} (a : A) : M A := fun s => (Ok a, s).
Definition raise {A} (e : exn) : M A := fun s => (Raise e, s).
Definition lift {A} (r : result A) : M A := fun s => (r, s).
Definition bind {A B} (m : M A) (k : A -> M B) : M B :=
  fun s => match m s with
           | (Ok a, s') => k a s'
           | (Raise e, s') => (Raise e, s')
           end.

Notation "'let*' x ':=' m 'in' k" := (bind m (fun x => k))
  (at level 10, x name, m at level 200, k at level 200).

Definition read_iface (l : loc) : M Interface := fun s => (Ok (ifaces s !!! l), s).
Definition read_dict (d : loc) : M (list (string * loc)) :=
  fun s => (Ok (dicts s !!! d), s).
Definition write_dict (d : loc) (items : list (string * loc)) : M unit :=
  fun s => (Ok tt, MkStore (ifaces s) (<[d := items]> (dicts s))).

(** A fresh [Interface] object and a fresh empty [dict]. *)
Definition new_iface (i : Interface) : M loc :=
  fun s => let l := fresh (dom (ifaces s)) in
           (Ok l, MkStore (<[l := i]> (ifaces s)) (dicts s)).
Definition new_dict : M loc :=
  fun s => let d := fresh (dom (dicts s)) in
           (Ok d, MkStore (ifaces s) (<[d := []]> (dicts s))).

(** ** class LLNetBase *)

(** The link-state callback is a function object; only its identity is
    stored. *)
Abbreviation callback := nat (only parsing).

Record LLNetBase : Type := MkLLNetBase {
  devupdown_callback : option callback;
  devinfo : loc
}.

(** The object [d.values()] returns: a view that refers to the dict. *)
Inductive dict_values_view : Type := DictValues (d : loc).

(** Enumerating a view ([list(view)], [for x in view]) reads the dict it
    refers to at the time of the enumeration. *)
Definition view_list (v : dict_values_view) : M (list loc) :=
  match v with
  | DictValues d => let* items := read_dict d in ret (dict_values items)
  end.

Section LLNetBaseMethods.
Context `{AL : AddressLib}.

(** [LLNetBase.__init__] *)
Definition LLNetBase_init (name : value) : M LLNetBase :=
  let* d := new_dict in ret (MkLLNetBase None d).

Definition set_devupdown_callback (self : LLNetBase) (cb : callback) : LLNetBase :=
  MkLLNetBase (Some cb) (devinfo self).

Definition interfaces (self : LLNetBase) : M dict_values_view :=
  ret (DictValues (devinfo self)).

Definition ports (self : LLNetBase) : M dict_values_view :=
  interfaces self.

Definition interface_by_name (self : LLNetBase) (name : string) : M loc :=
  let* d := read_dict (devinfo self) in
  if dict_contains name d then lift (dict_getitem name d)
  else let* msg := lift (py_format "No device named {}" [name]) in
       raise (SwitchyException msg).

Definition port_by_name (self : LLNetBase) (name : string) : M loc :=
  interface_by_name self name.

(** The loop [for devname,iface in self.devinfo.items(): if test(iface):
    return iface], which falls through with [None] when no item passes. *)
Fixpoint first_iface (test : Interface -> bool) (items : list (string * loc))
  : M (option loc) :=
  match items with
  | [] => ret None
  | (devname, iface) :: rest =>
      let* obj := read_iface iface in
      if test obj then ret (Some iface) else first_iface test rest
  end.

Definition interface_by_ipaddr (self : LLNetBase) (ipaddr_arg : value) : M loc :=
  let* a := lift (IPAddr_new ipaddr_arg) in
  let* items := read_dict (devinfo self) in
  let* found := first_iface (fun iface => py_eq (ipaddr iface) (VIP a)) items in
  match found with
  | Some iface => ret iface
  | None =>
      let* msg := lift (py_format "No device has IP address {}" [py_str (VIP a)]) in
      raise (SwitchyException msg)
  end.

Definition port_by_ipaddr (self : LLNetBase) (ipaddr_arg : value) : M loc :=
  interface_by_ipaddr self ipaddr_arg.

Definition interface_by_macaddr (self : LLNetBase) (macaddr : value) : M loc :=
  let* a := lift (EthAddr_new macaddr) in
  let* items := read_dict (devinfo self) in
  let* found := first_iface (fun iface => py_eq (ethaddr iface) (VEth a)) items in
  match found with
  | Some iface => ret iface
  | None =>
      let* msg := lift (py_format "No device has MAC address {}" [py_str (VEth a)]) in
      raise (SwitchyException msg)
  end.

Definition port_by_macaddr (self : LLNetBase) (macaddr : value) : M loc :=
  interface_by_macaddr self macaddr.

(** The statements a backend runs on the registry of its node:
    [self.devinfo[k] = iface] and [del self.devinfo[k]]. *)
Definition devinfo_setitem (self : LLNetBase) (k : string) (iface : loc) : M unit :=
  let* d := read_dict (devinfo self) in
  write_dict (devinfo self) (dict_setitem k iface d).

Definition devinfo_delitem (self : LLNetBase) (k : string) : M unit :=
  let* d := read_dict (devinfo self) in
  if dict_contains k d then write_dict (devinfo self) (dict_remove k d)
  else raise (KeyError k).

Inductive registry_op : Type :=
  | Register (k : string) (iface : loc)
  | Unregister (k : string).

Definition registry_step (self : LLNetBase) (s : store) (op : registry_op) : store :=
  match op with
  | Register k iface => snd (devinfo_setitem self k iface s)
  | Unregister k => snd (devinfo_delitem self k s)
  end.

Definition registry_run (self : LLNetBase) (ops : list registry_op) (s : store) : store :=
  fold_left (registry_step self) ops s.
End LLNetBaseMethods.

(** The items of the registry of a node, as the store has them. *)
Definition registry (self : LLNetBase) (s : store) : list (string * loc) :=
  dicts s !!! devinfo self.

(** [l] is the first interface, in the enumeration order of [items], that
    passes [test]; and no interface of [items] passes it. *)
Definition first_match (s : store) (test : Interface -> bool)
    (items : list (string * loc)) (l : loc) : Prop :=
  exists pre k post,
    items = pre ++ (k, l) :: post /\
    Forall (fun kv => test (ifaces s !!! snd kv) = false) pre /\
    test (ifaces s !!! l) = true.

Definition no_match (s : store) (test : Interface -> bool)
    (items : list (string * loc)) : Prop :=
  Forall (fun kv => test (ifaces s !!! snd kv) = false) items.

(** A registry operation that leaves the entry of [n] alone. *)
Definition avoids (n : string) (op : registry_op) : Prop :=
  match op with
  | Register k _ => k <> n
  | Unregister k => k <> n
  end.

(** ** A concrete device *)

(** Modelled from the spec: a backend, the concrete subclass of [LLNetBase]
    that implements the abstract methods [recv_packet], [send_packet] and
    [shutdown]. [common.py] only declares them, with placeholder bodies
    that a subclass has to override; the backends are not part of the
    sources at hand. The device is [Active] until [shutdown()] takes
    it through [ShuttingDown] to [Shutdown]; waiting is not modelled: the
    inbox holds the packets that arrive before the deadline of a receive. *)
Inductive phase : Type := PActive | PShuttingDown | PShutdown.

Abbreviation packet := (list Z) (only parsing).

Record device : Type := MkDevice {
  dev_base : LLNetBase;
  dev_phase : phase;
  dev_handles : list nat;
  dev_inbox : list (string * list Z);
  dev_sent : list (string * list Z)
}.

Definition is_active (p : phase) : bool :=
  match p with PActive => true | _ => false end.

(** Modelled from the spec: [recv_packet] fails with [Shutdown] on a device
    that is not active, with [NoPackets] when nothing has arrived, and
    otherwise hands out the oldest packet with the name of the interface
    it arrived on. *)
Definition recv_packet (self : device) : result (string * list Z) * device :=
  if is_active (dev_phase self) then
    match dev_inbox self with
    | [] => (Raise NoPackets, self)
    | p :: rest =>
        (Ok p, MkDevice (dev_base self) (dev_phase self) (dev_handles self)
                 rest (dev_sent self))
    end
  else (Raise Shutdown, self).

(** Modelled from the spec: [send_packet] fails with [Shutdown] on a device
    that is not active, and with the exception of [interface_by_name] when
    the interface is not registered on the node. *)
Definition send_packet (self : device) (dev : string) (pkt : list Z) (s : store)
  : result unit * device :=
  if is_active (dev_phase self) then
    match fst (interface_by_name (dev_base self) dev s) with
    | Raise e => (Raise e, self)
    | Ok _ =>
        (Ok tt, MkDevice (dev_base self) (dev_phase self) (dev_handles self)
                  (dev_inbox self) (dev_sent self ++ [(dev, pkt)]))
    end
  else (Raise Shutdown, self).

(** Modelled from the spec: [shutdown()] in its two steps. An active device
    starts shutting down; a device that is shutting down releases every
    backend resource and is shut down; a device that is shut down stays as
    it is. *)
Definition begin_shutdown (self : device) : device :=
  match dev_phase self with
  | PActive =>
      MkDevice (dev_base self) PShuttingDown (dev_handles self)
        (dev_inbox self) (dev_sent self)
  | _ => self
  end.

Definition finish_shutdown (self : device) : device :=
  match dev_phase self with
  | PShuttingDown =>
      MkDevice (dev_base self) PShutdown [] (dev_inbox self) (dev_sent self)
  | _ => self
  end.

Definition shutdown (self : device) : result unit * device :=
  (Ok tt, finish_shutdown (begin_shutdown self)).

Inductive device_op : Type :=
  | DoRecv
  | DoSend (dev : string) (pkt : list Z)
  | DoShutdown.

Definition is_shutdown_op (op : device_op) : bool :=
  match op with DoShutdown => true | _ => false end.

(** The device after one call, whatever its outcome. *)
Definition device_step (s : store) (self : device) (op : device_op) : device :=
  match op with
  | DoRecv => snd (recv_packet self)
  | DoSend dev pkt => snd (send_packet self dev pkt s)
  | DoShutdown => snd (shutdown self)
  end.

Definition device_run (s : store) (ops : list device_op) (self : device) : device :=
  fold_left (device_step s) ops self.

(** ** The address module *)

(** Modelled from the spec: the string forms of [switchyard.lib.address],
    which is not part of the sources at hand. A MAC address reads and
    prints as six two-digit hexadecimal groups joined by colons, an IPv4
    address as four decimal groups joined by dots, most significant group
    first. Hexadecimal digits are read in either case and printed in lower
    case; a decimal group is read only in the form it is printed in, with
    no superfluous leading zero. *)
Fixpoint split_on (sep : ascii) (s : string) : list string :=
  match s with
  | EmptyString => [EmptyString]
  | String c rest =>
      if Ascii.eqb c sep then EmptyString :: split_on sep rest
      else match split_on sep rest with
           | g :: gs => String c g :: gs
           | [] => [String c EmptyString]
           end
  end.

Fixpoint join (sep : ascii) (gs : list string) : string :=
  match gs with
  | [] => EmptyString
  | g :: gs' =>
      match gs' with
      | [] => g
      | _ :: _ => g +:+ String sep (join sep gs')
      end
  end.

Fixpoint string_map (f : ascii -> ascii) (s : string) : string :=
  match s with
  | EmptyString => EmptyString
  | String c rest => String (f c) (string_map f rest)
  end.

(** The [n] low-order bytes of [x], least significant first, and back. *)
Fixpoint octets_le (n : nat) (x : Z) : list Z :=
  match n with
  | O => []
  | S n' => x mod 256 :: octets_le n' (x / 256)
  end.

Fixpoint of_octets_le (os : list Z) : Z :=
  match os with
  | [] => 0
  | o :: rest => o + 256 * of_octets_le rest
  end.

Definition byte_range (o : Z) : Prop := 0 <= o < 256.

Definition octets (n : nat) (x : Z) : list Z := reverse (octets_le n x).
Definition of_octets (os : list Z) : Z := of_octets_le (reverse os).

(** Digits by their character codes: 48 to 57 for 0 to 9, 97 to 102 for
    a to f, 65 to 70 for A to F. *)
Definition char_code (c : ascii) : Z := Z.of_N (N_of_ascii c).
Definition code_char (n : Z) : ascii := ascii_of_N (Z.to_N n).

Definition hex_char (d : Z) : ascii :=
  code_char (if d <? 10 then 48 + d else 87 + d).

Definition hex_value (c : ascii) : option Z :=
  let n := char_code c in
  if (48 <=? n) && (n <=? 57) then Some (n - 48)
  else if (97 <=? n) && (n <=? 102) then Some (n - 87)
  else if (65 <=? n) && (n <=? 70) then Some (n - 55)
  else None.

Definition digit_char (d : Z) : ascii := code_char (48 + d).

Definition digit_value (c : ascii) : option Z :=
  let n := char_code c in
  if (48 <=? n) && (n <=? 57) then Some (n - 48) else None.

(** One byte as two hexadecimal digits. *)
Definition show_hex (o : Z) : string :=
  String (hex_char (o / 16)) (String (hex_char (o mod 16)) EmptyString).

Definition read_hex (g : string) : option Z :=
  match g with
  | String c1 (String c2 EmptyString) =>
      match hex_value c1, hex_value c2 with
      | Some h, Some l => Some (16 * h + l)
      | _, _ => None
      end
  | _ => None
  end.

(** One byte as a decimal number. *)
Definition show_dec (o : Z) : string :=
  if o <? 10 then String (digit_char o) EmptyString
  else if o <? 100 then
    String (digit_char (o / 10)) (String (digit_char (o mod 10)) EmptyString)
  else
    String (digit_char (o / 100))
      (String (digit_char (o / 10 mod 10))
        (String (digit_char (o mod 10)) EmptyString)).

Definition read_dec (g : string) : option Z :=
  match g with
  | String c1 EmptyString => digit_value c1
  | String c1 (String c2 EmptyString) =>
      match digit_value c1, digit_value c2 with
      | Some d1, Some d2 => if d1 =? 0 then None else Some (10 * d1 + d2)
      | _, _ => None
      end
  | String c1 (String c2 (String c3 EmptyString)) =>
      match digit_value c1, digit_value c2, digit_value c3 with
      | Some d1, Some d2, Some d3 =>
          if (d1 =? 0) || (255 <? 100 * d1 + 10 * d2 + d3) then None
          else Some (100 * d1 + 10 * d2 + d3)
      | _, _, _ => None
      end
  | _ => None
  end.

(** An address of [n] bytes as [n] groups joined by [sep]. *)
Definition render (sep : ascii) (n : nat) (show : Z -> string) (raw : Z) : string :=
  join sep (map show (octets n raw)).

Definition parse (sep : ascii) (n : nat) (read : string -> option Z) (s : string)
  : option Z :=
  let gs := split_on sep s in
  if Nat.eqb (length gs) n then of_octets <$> mapM read gs else None.

Definition EthAddr_parse (s : string) : option EthAddr :=
  MkEthAddr <$> parse ":" 6 read_hex s.
Definition EthAddr_to_string (e : EthAddr) : string :=
  render ":" 6 show_hex (eth_raw e).

Definition IPAddr_parse (s : string) : option IPAddr :=
  MkIPAddr <$> parse "." 4 read_dec s.
Definition IPAddr_to_string (a : IPAddr) : string :=
  render "." 4 show_dec (ip_raw a).

(** The canonical form of a valid address string: lower case for a MAC
    address, the string itself for an IPv4 address. *)
Definition lower_ascii (c : ascii) : ascii :=
  let n := char_code c in
  if (65 <=? n) && (n <=? 90) then code_char (n + 32) else c.

Definition canonical_mac (s : string) : string := string_map lower_ascii s.
Definition canonical_ip (s : string) : string := s.

(** Modelled from the spec: the constructors accept the string form and
    another instance of the same type, and reject a malformed string with
    [AddressFormatError]; the spec names no other input, which is rejected
    here as well. Equality compares the bits of two addresses of the same
    type and is not implemented for anything else. *)
Definition spec_EthAddr_new (v : value) : result EthAddr :=
  match v with
  | VEth e => Ok e
  | VStr s =>
      match EthAddr_parse s with
      | Some e => Ok e
      | None => Raise AddressFormatError
      end
  | _ => Raise AddressFormatError
  end.

Definition spec_IPAddr_new (v : value) : result IPAddr :=
  match v with
  | VIP a => Ok a
  | VStr s =>
      match IPAddr_parse s with
      | Some a => Ok a
      | None => Raise AddressFormatError
      end
  | _ => Raise AddressFormatError
  end.

Definition spec_EthAddr_eq (e : EthAddr) (v : value) : option bool :=
  match v with
  | VEth e' => Some (eth_raw e =? eth_raw e')
  | _ => None
  end.

Definition spec_IPAddr_eq (a : IPAddr) (v : value) : option bool :=
  match v with
  | VIP a' => Some (ip_raw a =? ip_raw a')
  | _ => None
  end.

Definition spec_address_lib : AddressLib := {|
  EthAddr_new := spec_EthAddr_new;
  IPAddr_new := spec_IPAddr_new;
  EthAddr_str := EthAddr_to_string;
  IPAddr_str := IPAddr_to_string;
  EthAddr_eq := spec_EthAddr_eq;
  IPAddr_eq := spec_IPAddr_eq
|}.

(** ** The scenario of the specification *)

(** A node with two interfaces, eth0 and eth1, built with the constructors
    and registered in this order. *)
Definition scenario : M (LLNetBase * loc * loc) :=
  let AL := spec_address_lib in
  let* net := LLNetBase_init VNone in
  let* i0 := lift (Interface_init (VStr "eth0") (VStr "AA:AA:AA:AA:AA:AA")
                     (VStr "10.0.0.1") (VStr "255.255.255.0")) in
  let* eth0 := new_iface i0 in
  let* u0 := devinfo_setitem net "eth0" eth0 in
  let* i1 := lift (Interface_init (VStr "eth1") (VStr "BB:BB:BB:BB:BB:BB")
                     (VStr "10.0.0.2") (VStr "255.255.255.0")) in
  let* eth1 := new_iface i1 in
  let* u1 := devinfo_setitem net "eth1" eth1 in
  ret (net, eth0, eth1).

(** The node and the store the scenario ends with, and a device on it. *)
Definition scenario_store : store := snd (scenario empty_store).
Definition scenario_net : LLNetBase := MkLLNetBase None 1%positive.
Definition scenario_device : device :=
  MkDevice scenario_net PActive [3%nat; 4%nat] [("eth0", [8; 0; 69])] [].

(** ** Interfaces as shared objects *)

(** The value a setter stores for its argument, apart from the object it
    stores it in: [typed], [new] and [dflt] are as in [coercion_rule]. *)
Definition coerce (typed : value -> bool) (new : value -> result value)
    (dflt : string) (v : value) : result value :=
  if typed v then Ok v
  else if isinstance_str v then new v
  else if is_None v then Ok (VStr dflt)
  else Ok v.

(** What an address field can hold once its setter has run: never [None],
    and no [str] but the default literal. *)
Definition field_ok (dflt : string) (v : value) : Prop :=
  is_None v = false /\ forall s, v = VStr s -> s = dflt.

Definition iface_ok (self : Interface) : Prop :=
  field_ok "00:00:00:00:00:00" (ethaddr self) /\
  field_ok "0.0.0.0" (ipaddr self) /\
  field_ok "255.255.255.255" (netmask self).

Definition write_iface (l : loc) (i : Interface) : M unit :=
  fun s => (Ok tt, MkStore (<[l := i]> (ifaces s)) (dicts s)).

Section SharedInterfaces.
Context `{AL : AddressLib}.

(** [obj.attr = v] on the [Interface] object that [l] refers to: every
    holder of the reference sees the outcome. An exception of the setter
    leaves the object as it was. *)
Definition iface_assign (l : loc) (a : attr) (v : value) : M unit :=
  let* self := read_iface l in
  let* self' := lift (Interface_setattr self a v) in
  write_iface l self'.

(** The tests of the two lookups by address. *)
Definition owns_ip (a : IPAddr) (iface : Interface) : bool :=
  py_eq (ipaddr iface) (VIP a).
Definition owns_mac (a : EthAddr) (iface : Interface) : bool :=
  py_eq (ethaddr iface) (VEth a).
End SharedInterfaces.

(** A second node on the store of the scenario, with the two interface
    objects of the first registered under other names. *)
Definition scenario_other : LLNetBase := MkLLNetBase None 7%positive.
Definition scenario_shared_store : store :=
  snd (devinfo_setitem scenario_other "lan1" 2%positive
         (snd (devinfo_setitem scenario_other "lan0" 1%positive scenario_store))).

(** A node whose only interface was constructed without addresses. *)
Definition scenario_defaults : M LLNetBase :=
  let AL := spec_address_lib in
  let* net := LLNetBase_init VNone in
  let* i0 := lift (Interface_init (VStr "eth0") VNone VNone VNone) in
  let* eth0 := new_iface i0 in
  let* u0 := devinfo_setitem net "eth0" eth0 in
  ret net.
Definition defaults_store : store := snd (scenario_defaults empty_store).
Definition defaults_net : LLNetBase := MkLLNetBase None 1%positive.

(** ** class PacketFormatter *)

(** The class attribute [__fulldisp]: one flag for the whole program,
    false when the module is loaded. *)
Record PacketFormatter : Type := MkPacketFormatter { fulldisp : bool }.

Definition PacketFormatter_loaded : PacketFormatter := MkPacketFormatter false.

(** [PacketFormatter.full_display()] *)
Definition full_display (st : PacketFormatter) : PacketFormatter :=
  MkPacketFormatter true.

Section Formatting.
Context `{AL : AddressLib}.

(** [PacketFormatter.format_pkt(pkt, cls)]: the lookup of the header of
    class [cls] is commented out in the source, so what is left is the
    reset of [cls] and [str(pkt)]. *)
Definition format_pkt (st : PacketFormatter) (pkt : value) (cls : value) : string :=
  let cls := if fulldisp st then VNone else cls in
  py_str pkt.

Inductive formatter_call : Type :=
  | CallFullDisplay
  | CallFormat (pkt : value) (cls : value).

Definition formatter_step (st : PacketFormatter) (c : formatter_call)
  : PacketFormatter :=
  match c with
  | CallFullDisplay => full_display st
  | CallFormat _ _ => st
  end.

Definition formatter_run (calls : list formatter_call) (st : PacketFormatter)
  : PacketFormatter :=
  fold_left formatter_step calls st.
End Formatting.

(** A variant of the address module whose [__eq__] first hands the other
    operand to the constructor of its own class and then compares the bits,
    and answers False when the constructor rejects the operand. *)
Definition coercing_EthAddr_eq (e : EthAddr) (v : value) : option bool :=
  match spec_EthAddr_new v with
  | Ok e' => Some (eth_raw e =? eth_raw e')
  | Raise _ => Some false
  end.

Definition coercing_IPAddr_eq (a : IPAddr) (v : value) : option bool :=
  match spec_IPAddr_new v with
  | Ok a' => Some (ip_raw a =? ip_raw a')
  | Raise _ => Some false
  end.

Definition coercing_address_lib : AddressLib := {|
  EthAddr_new := spec_EthAddr_new;
  IPAddr_new := spec_IPAddr_new;
  EthAddr_str := EthAddr_to_string;
  IPAddr_str := IPAddr_to_string;
  EthAddr_eq := coercing_EthAddr_eq;
  IPAddr_eq := coercing_IPAddr_eq
|}.

(** * Properties *)

Lemma string_app_empty_r (s : string) : s +:+ "" = s.
Proof.
  induction s as [|c s IH]; [done|].
  change (String c s +:+ "") with (String c (s +:+ "")). by rewrite IH.
Qed.

Section InterfaceProperties.
Context `{AL : AddressLib}.

(** A setter is settled by the outcome of the constructor it calls; what
    it stored is then read off the fields of the object it returns. *)
Ltac settle_setter :=
  let self := fresh "self" in
  intros self; unfold result_map, result_bind;
  repeat match goal with
  | |- _ /\ _ => split
  | |- forall _, _ => intro
  end;
  repeat match goal with
  | H : match ?r with Ok _ => _ | Raise _ => _ end = _ |- _ =>
      destruct r eqn:?; simplify_eq
  end;
  try match goal with |- exists _, _ => eexists; split end;
  unfold set_ethaddr, set_ipaddr, set_netmask, result_bind, holds; simpl;
  repeat match goal with
  | H : ?x = _ |- context [?x] => rewrite H
  end;
  try done.

Lemma set_ethaddr_rule :
  coercion_rule isinstance_EthAddr (fun v => result_map VEth (EthAddr_new v))
    "00:00:00:00:00:00" set_ethaddr FEthaddr.
Proof. settle_setter. Qed.

Lemma set_ipaddr_rule :
  coercion_rule isinstance_IPAddr (fun v => result_map VIP (IPAddr_new v))
    "0.0.0.0" set_ipaddr FIpaddr.
Proof. settle_setter. Qed.

Lemma set_netmask_rule :
  coercion_rule isinstance_IPAddr (fun v => result_map VIP (IPAddr_new v))
    "255.255.255.255" set_netmask FNetmask.
Proof. settle_setter. Qed.

(** C1: each of the three address setters follows the same four-way rule,
    stated on the fields of the object after the assignment. A value of the
    field's address type is what the field then holds; a string goes
    through the field's address constructor, the field then holds the typed
    address it returns, and the setter fails with AddressFormatError when
    the constructor rejects the string; after None the field holds the
    default literal (00:00:00:00:00:00, 0.0.0.0, 255.255.255.255); any
    other value is what the field then holds, without error. In each case
    the name and the other two address fields are as before. *)
Theorem address_setters_follow_coercion_rule :
  coercion_rule isinstance_EthAddr (fun v => result_map VEth (EthAddr_new v))
    "00:00:00:00:00:00" set_ethaddr FEthaddr /\
  coercion_rule isinstance_IPAddr (fun v => result_map VIP (IPAddr_new v))
    "0.0.0.0" set_ipaddr FIpaddr /\
  coercion_rule isinstance_IPAddr (fun v => result_map VIP (IPAddr_new v))
    "255.255.255.255" set_netmask FNetmask.
Proof.
  split; [exact set_ethaddr_rule | split; [exact set_ipaddr_rule | exact set_netmask_rule]].
Qed.

(** Each setter rebinds its own field and no other. *)
Lemma set_ethaddr_frame self v self' :
  set_ethaddr self v = Ok self' ->
  name self' = name self /\ ipaddr self' = ipaddr self /\ netmask self' = netmask self.
Proof.
  unfold set_ethaddr, result_bind. intros H.
  repeat case_match; simplify_eq; done.
Qed.

Lemma set_ipaddr_frame self v self' :
  set_ipaddr self v = Ok self' ->
  name self' = name self /\ ethaddr self' = ethaddr self /\ netmask self' = netmask self.
Proof.
  unfold set_ipaddr, result_bind. intros H.
  repeat case_match; simplify_eq; done.
Qed.

Lemma set_netmask_frame self v self' :
  set_netmask self v = Ok self' ->
  name self' = name self /\ ethaddr self' = ethaddr self /\ ipaddr self' = ipaddr self.
Proof.
  unfold set_netmask, result_bind. intros H.
  repeat case_match; simplify_eq; done.
Qed.

(** Construction, step by step. *)
Lemma Interface_init_inv n e i m self :
  Interface_init n e i m = Ok self ->
  exists s1 s2,
    set_ethaddr (MkInterface n VNone VNone VNone) e = Ok s1 /\
    set_ipaddr s1 i = Ok s2 /\
    set_netmask s2 m = Ok self.
Proof.
  unfold Interface_init, result_bind. intros H.
  destruct (set_ethaddr _ e) as [s1|] eqn:H1; [|done].
  destruct (set_ipaddr s1 i) as [s2|] eqn:H2; [|done].
  by exists s1, s2.
Qed.

(** C2: an interface constructed with ethaddr=None has an ethaddr whose
    string rendering is 00:00:00:00:00:00; constructed with ipaddr=None its
    ipaddr renders as 0.0.0.0; constructed with netmask=None its netmask
    renders as 255.255.255.255. *)
Theorem none_defaults_render n e i m self :
  (Interface_init n VNone i m = Ok self ->
     py_str (ethaddr self) = "00:00:00:00:00:00") /\
  (Interface_init n e VNone m = Ok self ->
     py_str (ipaddr self) = "0.0.0.0") /\
  (Interface_init n e i VNone = Ok self ->
     py_str (netmask self) = "255.255.255.255").
Proof.
  repeat split; intros H;
    apply Interface_init_inv in H as (s1 & s2 & H1 & H2 & H3).
  - apply set_ipaddr_frame in H2 as (_ & E2 & _).
    apply set_netmask_frame in H3 as (_ & E3 & _).
    rewrite E3, E2. unfold set_ethaddr in H1. by simplify_eq/=.
  - apply set_netmask_frame in H3 as (_ & _ & E3).
    rewrite E3. unfold set_ipaddr in H2. by simplify_eq/=.
  - unfold set_netmask in H3. by simplify_eq/=.
Qed.

(** The defaults are kept as the string literals themselves: a field that
    was set from None holds a [str], not a typed address. *)
Remark none_default_is_a_str self :
  (exists self', set_ethaddr self VNone = Ok self' /\
     isinstance_str (ethaddr self') = true /\ isinstance_EthAddr (ethaddr self') = false) /\
  (exists self', set_ipaddr self VNone = Ok self' /\
     isinstance_str (ipaddr self') = true /\ isinstance_IPAddr (ipaddr self') = false) /\
  (exists self', set_netmask self VNone = Ok self' /\
     isinstance_str (netmask self') = true /\ isinstance_IPAddr (netmask self') = false).
Proof. repeat split; by eexists. Qed.

Lemma iface_step_name self op : name (iface_step self op) = name self.
Proof.
  destruct op as [a v|]; [|done]. simpl.
  destruct (Interface_setattr self a v) as [self'|] eqn:H; [|done].
  destruct a; simpl in H; [done| | |].
  - by apply set_ethaddr_frame in H as (? & _).
  - by apply set_ipaddr_frame in H as (? & _).
  - by apply set_netmask_frame in H as (? & _).
Qed.

Lemma iface_run_name ops self : name (iface_run ops self) = name self.
Proof.
  revert self. induction ops as [|op ops IH]; intros self; [done|].
  change (iface_run (op :: ops) self) with (iface_run ops (iface_step self op)).
  by rewrite IH, iface_step_name.
Qed.

(** C6: the name given to the constructor is stored verbatim, no sequence
    of operations on the interface (assignments to its address fields
    included) changes it, and assigning the name itself is refused at any
    later time. *)
Theorem name_is_read_only n e i m self :
  Interface_init n e i m = Ok self ->
  name self = n /\
  forall ops : list iface_op,
    name (iface_run ops self) = n /\
    forall v, exists msg,
      Interface_setattr (iface_run ops self) AName v = Raise (AttributeError msg).
Proof.
  intros H. apply Interface_init_inv in H as (s1 & s2 & H1 & H2 & H3).
  apply set_ethaddr_frame in H1 as (E1 & _).
  apply set_ipaddr_frame in H2 as (E2 & _).
  apply set_netmask_frame in H3 as (E3 & _).
  assert (name self = n) as E by (by rewrite E3, E2, E1).
  split; [done|]. intros ops. split.
  - by rewrite iface_run_name.
  - intros v. by eexists.
Qed.

(** C7: the string rendering of an interface is its name, then " mac:" and
    its ethaddr, then " ip:" and its ipaddr, then "/" and its netmask, each
    field in its own string form. *)
Theorem Interface_str_format self :
  Interface_str self =
    Ok (py_str (name self) +:+ " mac:" +:+ py_str (ethaddr self) +:+
        " ip:" +:+ py_str (ipaddr self) +:+ "/" +:+ py_str (netmask self)).
Proof.
  unfold Interface_str.
  generalize (py_str (name self)) (py_str (ethaddr self))
             (py_str (ipaddr self)) (py_str (netmask self)).
  intros a b c d.
  change (py_format "{} mac:{} ip:{}/{}" [a; b; c; d])
    with (Ok (a +:+ " mac:" +:+ b +:+ " ip:" +:+ c +:+ "/" +:+ d +:+ "")).
  by rewrite string_app_empty_r.
Qed.

End InterfaceProperties.

Lemma address_setters_follow_coercion_rule_witness :
  (isinstance_EthAddr (VEth (MkEthAddr 5)) = true /\
   set_ethaddr (AL := spec_address_lib)
     (MkInterface (VStr "eth0") (VInt 1) (VInt 2) (VInt 3)) (VEth (MkEthAddr 5)) =
     Ok (MkInterface (VStr "eth0") (VEth (MkEthAddr 5)) (VInt 2) (VInt 3))) /\
  (result_map VIP (spec_IPAddr_new (VStr "10.0.0.1")) = Ok (VIP (MkIPAddr 167772161)) /\
   set_ipaddr (AL := spec_address_lib)
     (MkInterface (VStr "eth0") (VInt 1) (VInt 2) (VInt 3)) (VStr "10.0.0.1") =
     Ok (MkInterface (VStr "eth0") (VInt 1) (VIP (MkIPAddr 167772161)) (VInt 3))) /\
  (result_map VIP (spec_IPAddr_new (VStr "255.255.0")) = Raise AddressFormatError /\
   set_netmask (AL := spec_address_lib)
     (MkInterface (VStr "eth0") (VInt 1) (VInt 2) (VInt 3)) (VStr "255.255.0") =
     Raise AddressFormatError) /\
  ((isinstance_IPAddr (VInt 7) = false /\ isinstance_str (VInt 7) = false /\
    is_None (VInt 7) = false) /\
   set_netmask (AL := spec_address_lib)
     (MkInterface (VStr "eth0") (VInt 1) (VInt 2) (VInt 3)) (VInt 7) =
     Ok (MkInterface (VStr "eth0") (VInt 1) (VInt 2) (VInt 7))).
Proof.
  destruct (address_setters_follow_coercion_rule (AL := spec_address_lib))
    as (He & Hi & Hm).
  destruct (He (MkInterface (VStr "eth0") (VInt 1) (VInt 2) (VInt 3))) as (He1 & _).
  destruct (Hi (MkInterface (VStr "eth0") (VInt 1) (VInt 2) (VInt 3)))
    as (_ & Hi2 & _).
  destruct (Hm (MkInterface (VStr "eth0") (VInt 1) (VInt 2) (VInt 3)))
    as (_ & _ & Hm3 & _ & Hm5).
  split; [split; [reflexivity|]|].
  { destruct (He1 (VEth (MkEthAddr 5)) eq_refl) as ([n e i m] & -> & Hn & H1 & H2 & H3).
    simpl in Hn, H1, H2, H3. by rewrite Hn, H1, H2, H3. }
  split; [split; [reflexivity|]|].
  { destruct (Hi2 "10.0.0.1" (VIP (MkIPAddr 167772161)) eq_refl)
      as (_ & [n e i m] & -> & Hn & H1 & H2 & H3).
    simpl in Hn, H1, H2, H3. by rewrite Hn, H1, H2, H3. }
  split; [split; [reflexivity | apply Hm3; reflexivity]|].
  split; [split; [reflexivity | split; reflexivity]|].
  destruct (Hm5 (VInt 7) eq_refl eq_refl eq_refl) as ([n e i m] & -> & Hn & H1 & H2 & H3).
  simpl in Hn, H1, H2, H3. by rewrite Hn, H1, H2, H3.
Defined.

Lemma none_defaults_render_witness :
  Interface_init (AL := spec_address_lib) (VStr "eth0") VNone VNone VNone =
    Ok (MkInterface (VStr "eth0") (VStr "00:00:00:00:00:00") (VStr "0.0.0.0")
          (VStr "255.255.255.255")) /\
  py_str (AL := spec_address_lib) (VStr "00:00:00:00:00:00") = "00:00:00:00:00:00" /\
  py_str (AL := spec_address_lib) (VStr "0.0.0.0") = "0.0.0.0" /\
  py_str (AL := spec_address_lib) (VStr "255.255.255.255") = "255.255.255.255".
Proof.
  split; [reflexivity|].
  destruct (none_defaults_render (AL := spec_address_lib)
              (VStr "eth0") VNone VNone VNone
              (MkInterface (VStr "eth0") (VStr "00:00:00:00:00:00") (VStr "0.0.0.0")
                 (VStr "255.255.255.255"))) as (H1 & H2 & H3).
  split; [apply H1; reflexivity|].
  split; [apply H2; reflexivity | apply H3; reflexivity].
Defined.

Lemma name_is_read_only_witness :
  Interface_init (AL := spec_address_lib) (VStr "eth0") (VStr "AA:AA:AA:AA:AA:AA")
    VNone (VInt 24) =
    Ok (MkInterface (VStr "eth0") (VEth (MkEthAddr 187649984473770))
          (VStr "0.0.0.0") (VInt 24)) /\
  name (iface_run (AL := spec_address_lib)
          [OpAssign AEthaddr VNone; OpAssign AName (VStr "eth9");
           OpAssign AIpaddr (VStr "10.0.0."); OpStr; OpAssign ANetmask (VInt 8)]
          (MkInterface (VStr "eth0") (VEth (MkEthAddr 187649984473770))
             (VStr "0.0.0.0") (VInt 24))) = VStr "eth0".
Proof.
  split; [reflexivity|].
  apply (name_is_read_only (AL := spec_address_lib) (VStr "eth0")
           (VStr "AA:AA:AA:AA:AA:AA") VNone (VInt 24)); reflexivity.
Defined.

(** ** The registry *)

Section DictFacts.
Context {V : Type}.
Implicit Types (d : list (string * V)) (k : string) (v : V).

Lemma dict_get_setitem_eq k v d : dict_get k (dict_setitem k v d) = Some v.
Proof.
  induction d as [|[k' v'] d IH]; simpl.
  - by rewrite String.eqb_refl.
  - destruct (String.eqb k' k) eqn:E; simpl; by rewrite E.
Qed.

Lemma dict_get_setitem_ne k k' v d :
  k <> k' -> dict_get k' (dict_setitem k v d) = dict_get k' d.
Proof.
  intros Hne. induction d as [|[k0 v0] d IH]; simpl.
  - by apply String.eqb_neq in Hne as ->.
  - destruct (String.eqb k0 k) eqn:E; simpl; [|by rewrite IH].
    apply String.eqb_eq in E as ->. by apply String.eqb_neq in Hne as ->.
Qed.

Lemma dict_get_remove_ne k k' d :
  k <> k' -> dict_get k' (dict_remove k d) = dict_get k' d.
Proof.
  intros Hne. induction d as [|[k0 v0] d IH]; simpl; [done|].
  destruct (String.eqb k0 k) eqn:E; simpl; [|by rewrite IH].
  apply String.eqb_eq in E as ->. by apply String.eqb_neq in Hne as ->.
Qed.

Lemma dict_get_None k d : dict_get k d = None <-> k ∉ dict_keys d.
Proof.
  induction d as [|[k0 v0] d IH]; simpl.
  - split; [intros _; apply not_elem_of_nil | done].
  - rewrite not_elem_of_cons. destruct (String.eqb k0 k) eqn:E.
    + apply String.eqb_eq in E as ->. split; [done | by intros [? _]].
    + apply String.eqb_neq in E. rewrite IH. split; [by split | by intros [_ ?]].
Qed.

Lemma dict_setitem_fresh k v d :
  k ∉ dict_keys d -> dict_setitem k v d = d ++ [(k, v)].
Proof.
  induction d as [|[k0 v0] d IH]; simpl; [done|].
  rewrite not_elem_of_cons. intros [Hne Hd].
  assert (String.eqb k0 k = false) as -> by (apply String.eqb_neq; congruence).
  by rewrite IH.
Qed.

Lemma dict_get_middle k v (pre post : list (string * V)) :
  k ∉ dict_keys pre -> dict_get k (pre ++ (k, v) :: post) = Some v.
Proof.
  induction pre as [|[k0 v0] pre IH]; simpl.
  - intros _. by rewrite String.eqb_refl.
  - rewrite not_elem_of_cons. intros [Hne Hpre].
    assert (String.eqb k0 k = false) as -> by (apply String.eqb_neq; congruence).
    by apply IH.
Qed.

Lemma dict_remove_middle k v (pre post : list (string * V)) :
  k ∉ dict_keys pre -> dict_remove k (pre ++ (k, v) :: post) = pre ++ post.
Proof.
  induction pre as [|[k0 v0] pre IH]; simpl.
  - intros _. by rewrite String.eqb_refl.
  - rewrite not_elem_of_cons. intros [Hne Hpre].
    assert (String.eqb k0 k = false) as -> by (apply String.eqb_neq; congruence).
    by rewrite IH.
Qed.
End DictFacts.

Lemma registry_write self items s :
  registry self (snd (write_dict (devinfo self) items s)) = items.
Proof. unfold registry. simpl. apply lookup_total_insert_eq. Qed.

Lemma registry_setitem self k iface s :
  registry self (snd (devinfo_setitem self k iface s)) =
    dict_setitem k iface (registry self s).
Proof. unfold devinfo_setitem, bind, read_dict. apply registry_write. Qed.

Lemma registry_delitem self k s :
  registry self (snd (devinfo_delitem self k s)) =
    if dict_contains k (registry self s) then dict_remove k (registry self s)
    else registry self s.
Proof.
  unfold devinfo_delitem, bind, read_dict. fold (registry self s).
  destruct (dict_contains k (registry self s)); [apply registry_write | done].
Qed.

Lemma registry_step_avoids self n op s :
  avoids n op ->
  dict_get n (registry self (registry_step self s op)) = dict_get n (registry self s).
Proof.
  destruct op as [k iface|k]; intros Hne; unfold registry_step, avoids in *.
  - by rewrite registry_setitem, dict_get_setitem_ne.
  - rewrite registry_delitem. destruct (dict_contains _ _); [|done].
    by rewrite dict_get_remove_ne.
Qed.

Lemma registry_run_avoids self n ops s :
  Forall (avoids n) ops ->
  dict_get n (registry self (registry_run self ops s)) = dict_get n (registry self s).
Proof.
  intros H. revert s. induction H as [|op ops Hop _ IH]; intros s; [done|].
  change (registry_run self (op :: ops) s)
    with (registry_run self ops (registry_step self s op)).
  by rewrite IH, registry_step_avoids.
Qed.

Section LLNetBaseProperties.
Context `{AL : AddressLib}.

Lemma interface_by_name_found self n iface s :
  dict_get n (registry self s) = Some iface ->
  interface_by_name self n s = (Ok iface, s).
Proof.
  intros H. unfold interface_by_name, bind, read_dict. fold (registry self s).
  unfold dict_contains, lift, dict_getitem. by rewrite H.
Qed.

Lemma interface_by_name_missing self m s :
  dict_get m (registry self s) = None ->
  interface_by_name self m s =
    (Raise (SwitchyException ("No device named " +:+ m)), s).
Proof.
  intros H. unfold interface_by_name, bind, read_dict. fold (registry self s).
  unfold dict_contains. rewrite H. unfold lift, raise.
  change (py_format "No device named {}" [m])
    with (Ok ("No device named " +:+ m +:+ "")).
  by rewrite string_app_empty_r.
Qed.

(** C5: once an interface is registered under a name, interface_by_name
    of that name returns that very object, also after any later registry
    operations on other names; interface_by_name of a name that is not in
    the registry fails with SwitchyException (the UnknownDeviceError of the
    specification). *)
Theorem interface_by_name_left_inverse self s n iface :
  let s1 := snd (devinfo_setitem self n iface s) in
  interface_by_name self n s1 = (Ok iface, s1) /\
  (forall ops, Forall (avoids n) ops ->
     let s2 := registry_run self ops s1 in
     interface_by_name self n s2 = (Ok iface, s2)) /\
  (forall m s', m ∉ dict_keys (registry self s') ->
     interface_by_name self m s' =
       (Raise (SwitchyException ("No device named " +:+ m)), s')).
Proof.
  intros s1.
  assert (dict_get n (registry self s1) = Some iface) as H1.
  { unfold s1. by rewrite registry_setitem, dict_get_setitem_eq. }
  repeat split.
  - by apply interface_by_name_found.
  - intros ops Hops s2. apply interface_by_name_found.
    unfold s2. by rewrite registry_run_avoids.
  - intros m s' Hm. apply interface_by_name_missing. by apply dict_get_None.
Qed.

(** C10: interfaces() leaves the store as it is and returns a view of the
    registry, not a copy: whatever registrations and removals follow the
    call, enumerating the returned view yields the interfaces that are in
    the registry at the time of the enumeration. An interface registered
    under a new name after the call shows up last; an interface removed
    after the call no longer shows up. *)
Theorem interfaces_is_live_view self s :
  exists view,
    interfaces self s = (Ok view, s) /\
    (forall ops,
       let s' := registry_run self ops s in
       view_list view s' = (Ok (dict_values (registry self s')), s')) /\
    (forall k iface, k ∉ dict_keys (registry self s) ->
       let s' := snd (devinfo_setitem self k iface s) in
       view_list view s' = (Ok (dict_values (registry self s) ++ [iface]), s')) /\
    (forall k iface pre post,
       registry self s = pre ++ (k, iface) :: post -> k ∉ dict_keys pre ->
       let s' := snd (devinfo_delitem self k s) in
       view_list view s' = (Ok (dict_values pre ++ dict_values post), s')).
Proof.
  exists (DictValues (devinfo self)). repeat split.
  - intros k iface Hk s'. unfold view_list, bind, read_dict, ret.
    fold (registry self s'). unfold s'.
    rewrite registry_setitem, dict_setitem_fresh by done.
    unfold dict_values. by rewrite map_app.
  - intros k iface pre post Hreg Hk s'. unfold view_list, bind, read_dict, ret.
    fold (registry self s'). unfold s'.
    rewrite registry_delitem, Hreg. unfold dict_contains.
    rewrite dict_get_middle, dict_remove_middle by done.
    unfold dict_values. by rewrite map_app.
Qed.

Lemma first_iface_found test items l s :
  first_match s test items l -> first_iface test items s = (Ok (Some l), s).
Proof.
  intros (pre & k & post & -> & Hpre & Hl).
  induction Hpre as [|[k0 l0] pre H0 _ IH]; simpl in *.
  - unfold bind, read_iface. by rewrite Hl.
  - unfold bind, read_iface. by rewrite H0.
Qed.

Lemma first_iface_none test items s :
  no_match s test items -> first_iface test items s = (Ok None, s).
Proof.
  intros H. induction H as [|[k0 l0] items H0 _ IH]; simpl in *; [done|].
  unfold bind, read_iface. by rewrite H0.
Qed.

(** The first match is unique, and excludes there being no match. *)
Lemma first_match_unique s test items l l' :
  first_match s test items l -> first_match s test items l' -> l = l'.
Proof.
  intros H H'. apply first_iface_found in H, H'. congruence.
Qed.

(** Run a lookup by address up to its loop, given the outcome [H] of the
    constructor call. *)
Ltac enter_lookup H self s :=
  unfold interface_by_ipaddr, interface_by_macaddr, bind, lift, read_dict;
  rewrite H; try fold (registry self s).

(** C3: interface_by_ipaddr first passes its argument to the IPAddr
    constructor, and an exception of the constructor (AddressFormatError
    for a malformed string) is the outcome whatever the registry holds;
    otherwise it returns the first interface, in the enumeration order of
    the registry, whose ipaddr equals the constructed address, and raises
    SwitchyException (the UnknownDeviceError of the specification) when no
    registered interface does, in particular when the registry is empty.
    interface_by_macaddr does the same with EthAddr and ethaddr. *)
Theorem lookup_by_address self arg s :
  ((forall e, IPAddr_new arg = Raise e ->
      interface_by_ipaddr self arg s = (Raise e, s)) /\
   (forall a, IPAddr_new arg = Ok a ->
      let test := fun iface => py_eq (ipaddr iface) (VIP a) in
      let failure :=
        Raise (SwitchyException ("No device has IP address " +:+ IPAddr_str a)) in
      (forall l, first_match s test (registry self s) l ->
         interface_by_ipaddr self arg s = (Ok l, s)) /\
      (no_match s test (registry self s) ->
         interface_by_ipaddr self arg s = (failure, s)) /\
      (registry self s = [] ->
         interface_by_ipaddr self arg s = (failure, s)))) /\
  ((forall e, EthAddr_new arg = Raise e ->
      interface_by_macaddr self arg s = (Raise e, s)) /\
   (forall a, EthAddr_new arg = Ok a ->
      let test := fun iface => py_eq (ethaddr iface) (VEth a) in
      let failure :=
        Raise (SwitchyException ("No device has MAC address " +:+ EthAddr_str a)) in
      (forall l, first_match s test (registry self s) l ->
         interface_by_macaddr self arg s = (Ok l, s)) /\
      (no_match s test (registry self s) ->
         interface_by_macaddr self arg s = (failure, s)) /\
      (registry self s = [] ->
         interface_by_macaddr self arg s = (failure, s)))).
Proof.
  split; (split; [by intros e He; enter_lookup He self s|]);
    intros a Ha test failure.
  - assert (no_match s test (registry self s) ->
            interface_by_ipaddr self arg s = (failure, s)) as Hnone.
    { intros Hno. enter_lookup Ha self s. fold test.
      rewrite (first_iface_none _ _ _ Hno). unfold raise, failure.
      change (py_format "No device has IP address {}" [py_str (VIP a)])
        with (Ok ("No device has IP address " +:+ IPAddr_str a +:+ "")).
      by rewrite string_app_empty_r. }
    split; [|split; [done|]].
    + intros l Hl. enter_lookup Ha self s. fold test.
      by rewrite (first_iface_found _ _ _ _ Hl).
    + intros Hnil. apply Hnone. rewrite Hnil. constructor.
  - assert (no_match s test (registry self s) ->
            interface_by_macaddr self arg s = (failure, s)) as Hnone.
    { intros Hno. enter_lookup Ha self s. fold test.
      rewrite (first_iface_none _ _ _ Hno). unfold raise, failure.
      change (py_format "No device has MAC address {}" [py_str (VEth a)])
        with (Ok ("No device has MAC address " +:+ EthAddr_str a +:+ "")).
      by rewrite string_app_empty_r. }
    split; [|split; [done|]].
    + intros l Hl. enter_lookup Ha self s. fold test.
      by rewrite (first_iface_found _ _ _ _ Hl).
    + intros Hnil. apply Hnone. rewrite Hnil. constructor.
Qed.

(** C9: the port-named methods are the interface-named methods: on every
    node, store and argument, ports, port_by_name, port_by_ipaddr and
    port_by_macaddr give the result (value or exception, and store) of
    interfaces, interface_by_name, interface_by_ipaddr and
    interface_by_macaddr. *)
Theorem ports_are_aliases self s :
  ports self s = interfaces self s /\
  (forall n, port_by_name self n s = interface_by_name self n s) /\
  (forall a, port_by_ipaddr self a s = interface_by_ipaddr self a s) /\
  (forall a, port_by_macaddr self a s = interface_by_macaddr self a s).
Proof. repeat split. Qed.

End LLNetBaseProperties.

Lemma lookup_by_address_witness :
  (spec_IPAddr_new (VStr "10.0.0.2") = Ok (MkIPAddr 167772162) /\
   first_match scenario_store
     (fun iface => py_eq (AL := spec_address_lib) (ipaddr iface) (VIP (MkIPAddr 167772162)))
     (registry scenario_net scenario_store) 2%positive /\
   interface_by_ipaddr (AL := spec_address_lib) scenario_net (VStr "10.0.0.2")
     scenario_store = (Ok 2%positive, scenario_store)) /\
  (spec_EthAddr_new (VStr "AA:AA:AA:AA:AA:AA") = Ok (MkEthAddr 187649984473770) /\
   first_match scenario_store
     (fun iface => py_eq (AL := spec_address_lib) (ethaddr iface)
                     (VEth (MkEthAddr 187649984473770)))
     (registry scenario_net scenario_store) 1%positive /\
   interface_by_macaddr (AL := spec_address_lib) scenario_net
     (VStr "AA:AA:AA:AA:AA:AA") scenario_store = (Ok 1%positive, scenario_store)) /\
  (spec_IPAddr_new (VStr "10.0.0.") = Raise AddressFormatError /\
   interface_by_ipaddr (AL := spec_address_lib) scenario_net (VStr "10.0.0.")
     scenario_store = (Raise AddressFormatError, scenario_store)) /\
  (spec_EthAddr_new (VStr "CC:CC:CC:CC:CC:CC") = Ok (MkEthAddr 225179981368524) /\
   no_match scenario_store
     (fun iface => py_eq (AL := spec_address_lib) (ethaddr iface)
                     (VEth (MkEthAddr 225179981368524)))
     (registry scenario_net scenario_store) /\
   interface_by_macaddr (AL := spec_address_lib) scenario_net
     (VStr "CC:CC:CC:CC:CC:CC") scenario_store =
     (Raise (SwitchyException "No device has MAC address cc:cc:cc:cc:cc:cc"),
      scenario_store)).
Proof.
  assert (first_match scenario_store
            (fun iface => py_eq (AL := spec_address_lib) (ipaddr iface)
                            (VIP (MkIPAddr 167772162)))
            (registry scenario_net scenario_store) 2%positive) as Hip.
  { exists [("eth0", 1%positive)], "eth1", [].
    split; [reflexivity|]. split; [|reflexivity].
    constructor; [reflexivity | constructor]. }
  assert (first_match scenario_store
            (fun iface => py_eq (AL := spec_address_lib) (ethaddr iface)
                            (VEth (MkEthAddr 187649984473770)))
            (registry scenario_net scenario_store) 1%positive) as Hmac.
  { exists [], "eth0", [("eth1", 2%positive)].
    split; [reflexivity|]. split; [constructor | reflexivity]. }
  assert (no_match scenario_store
            (fun iface => py_eq (AL := spec_address_lib) (ethaddr iface)
                            (VEth (MkEthAddr 225179981368524)))
            (registry scenario_net scenario_store)) as Hno.
  { change (registry scenario_net scenario_store)
      with [("eth0", 1%positive); ("eth1", 2%positive)].
    constructor; [reflexivity|]. constructor; [reflexivity | constructor]. }
  split; [split; [reflexivity | split; [exact Hip|]]|].
  { destruct (lookup_by_address (AL := spec_address_lib) scenario_net
                (VStr "10.0.0.2") scenario_store) as [[_ H] _].
    destruct (H (MkIPAddr 167772162) eq_refl) as (Hfound & _).
    exact (Hfound 2%positive Hip). }
  split; [split; [reflexivity | split; [exact Hmac|]]|].
  { destruct (lookup_by_address (AL := spec_address_lib) scenario_net
                (VStr "AA:AA:AA:AA:AA:AA") scenario_store) as [_ [_ H]].
    destruct (H (MkEthAddr 187649984473770) eq_refl) as (Hfound & _).
    exact (Hfound 1%positive Hmac). }
  split; [split; [reflexivity|]|].
  { destruct (lookup_by_address (AL := spec_address_lib) scenario_net
                (VStr "10.0.0.") scenario_store) as [[H _] _].
    exact (H AddressFormatError eq_refl). }
  split; [reflexivity | split; [exact Hno|]].
  destruct (lookup_by_address (AL := spec_address_lib) scenario_net
              (VStr "CC:CC:CC:CC:CC:CC") scenario_store) as [_ [_ H]].
  destruct (H (MkEthAddr 225179981368524) eq_refl) as (_ & Hnone & _).
  exact (Hnone Hno).
Defined.

Lemma interface_by_name_left_inverse_witness :
  (Forall (avoids "eth0") [Register "eth1" 7%positive; Unregister "eth1"] /\
   interface_by_name scenario_net "eth0"
     (registry_run scenario_net [Register "eth1" 7%positive; Unregister "eth1"]
        (snd (devinfo_setitem scenario_net "eth0" 9%positive scenario_store))) =
     (Ok 9%positive,
      registry_run scenario_net [Register "eth1" 7%positive; Unregister "eth1"]
        (snd (devinfo_setitem scenario_net "eth0" 9%positive scenario_store)))) /\
  (("ghost" ∉ dict_keys (registry scenario_net scenario_store)) /\
   interface_by_name scenario_net "ghost" scenario_store =
     (Raise (SwitchyException "No device named ghost"), scenario_store)).
Proof.
  assert (Forall (avoids "eth0") [Register "eth1" 7%positive; Unregister "eth1"])
    as Hops by (repeat constructor; discriminate).
  assert ("ghost" ∉ dict_keys (registry scenario_net scenario_store)) as Hghost
    by (apply dict_get_None; reflexivity).
  destruct (interface_by_name_left_inverse scenario_net scenario_store "eth0"
              9%positive) as (_ & Hlater & Hmissing).
  split; [split; [exact Hops | exact (Hlater _ Hops)]|].
  split; [exact Hghost | exact (Hmissing "ghost" scenario_store Hghost)].
Defined.

Lemma interfaces_is_live_view_witness :
  exists view,
    interfaces scenario_net scenario_store = (Ok view, scenario_store) /\
    (("eth2" ∉ dict_keys (registry scenario_net scenario_store)) /\
     fst (view_list view
            (snd (devinfo_setitem scenario_net "eth2" 3%positive scenario_store))) =
       Ok [1%positive; 2%positive; 3%positive]) /\
    ((registry scenario_net scenario_store =
        [] ++ ("eth0", 1%positive) :: [("eth1", 2%positive)] /\
      "eth0" ∉ dict_keys ([] : list (string * positive))) /\
     fst (view_list view (snd (devinfo_delitem scenario_net "eth0" scenario_store))) =
       Ok [2%positive]).
Proof.
  destruct (interfaces_is_live_view scenario_net scenario_store)
    as (view & Hcall & _ & Hreg & Hdel).
  exists view. split; [exact Hcall|].
  assert ("eth2" ∉ dict_keys (registry scenario_net scenario_store)) as Hnew
    by (apply dict_get_None; reflexivity).
  assert ("eth0" ∉ dict_keys ([] : list (string * positive))) as Hpre
    by apply not_elem_of_nil.
  split.
  - split; [exact Hnew|]. by rewrite (Hreg "eth2" 3%positive Hnew).
  - split; [split; [reflexivity | exact Hpre]|].
    by rewrite (Hdel "eth0" 1%positive [] [("eth1", 2%positive)] eq_refl Hpre).
Defined.

(** ** Shutdown *)

Lemma device_step_phase s self op :
  is_shutdown_op op = false -> dev_phase (device_step s self op) = dev_phase self.
Proof.
  destruct op as [|dev pkt|]; [| |done]; intros _; simpl.
  - unfold recv_packet. by repeat case_match.
  - unfold send_packet. by repeat case_match.
Qed.

Lemma shutdown_phase self : dev_phase (snd (shutdown self)) = PShutdown.
Proof.
  unfold shutdown, finish_shutdown, begin_shutdown. simpl.
  by destruct (dev_phase self) eqn:E; simpl; rewrite ?E.
Qed.

Lemma shutdown_fixed self :
  dev_phase self = PShutdown -> snd (shutdown self) = self.
Proof.
  intros H. unfold shutdown, finish_shutdown, begin_shutdown. simpl.
  by rewrite H, H.
Qed.

Lemma device_step_stays_shutdown s self op :
  dev_phase self = PShutdown -> dev_phase (device_step s self op) = PShutdown.
Proof.
  intros H. destruct op as [|dev pkt|].
  - by rewrite device_step_phase.
  - by rewrite device_step_phase.
  - apply shutdown_phase.
Qed.

Lemma device_run_stays_shutdown s ops self :
  dev_phase self = PShutdown -> dev_phase (device_run s ops self) = PShutdown.
Proof.
  revert self. induction ops as [|op ops IH]; intros self H; [done|].
  change (device_run s (op :: ops) self)
    with (device_run s ops (device_step s self op)).
  by apply IH, device_step_stays_shutdown.
Qed.

(** C4: shutdown() never fails and a second call changes nothing; once it
    has run, whatever calls follow, recv_packet and send_packet fail with
    Shutdown; the device only leaves the active phase through shutdown()
    (no other call changes the phase) and never comes back from Shutdown. *)
Theorem shutdown_is_idempotent_and_final s self :
  fst (shutdown self) = Ok tt /\
  shutdown (snd (shutdown self)) = shutdown self /\
  (forall ops,
     let d := device_run s ops (snd (shutdown self)) in
     fst (recv_packet d) = Raise Shutdown /\
     forall dev pkt s', fst (send_packet d dev pkt s') = Raise Shutdown) /\
  (forall op, is_shutdown_op op = false ->
     dev_phase (device_step s self op) = dev_phase self) /\
  (forall ops, dev_phase self = PShutdown ->
     dev_phase (device_run s ops self) = PShutdown).
Proof.
  split; [done|]. split.
  { unfold shutdown at 1 3. f_equal. apply shutdown_fixed, shutdown_phase. }
  split.
  { intros ops d.
    assert (dev_phase d = PShutdown) as Hd
      by apply device_run_stays_shutdown, shutdown_phase.
    split; [|intros dev pkt s'].
    - unfold recv_packet. by rewrite Hd.
    - unfold send_packet. by rewrite Hd. }
  split.
  - intros op. apply device_step_phase.
  - intros ops. apply device_run_stays_shutdown.
Qed.

Lemma shutdown_is_idempotent_and_final_witness :
  (is_shutdown_op (DoSend "eth0" [1; 2]) = false /\
   dev_phase (device_step scenario_store scenario_device (DoSend "eth0" [1; 2])) =
     PActive) /\
  (dev_phase (snd (shutdown scenario_device)) = PShutdown /\
   dev_phase (device_run scenario_store [DoRecv; DoShutdown; DoSend "eth1" [7]]
                (snd (shutdown scenario_device))) = PShutdown) /\
  fst (recv_packet (device_run scenario_store [DoRecv; DoShutdown]
                      (snd (shutdown scenario_device)))) = Raise Shutdown.
Proof.
  destruct (shutdown_is_idempotent_and_final scenario_store scenario_device)
    as (_ & _ & Hafter & Honly & _).
  destruct (shutdown_is_idempotent_and_final scenario_store
              (snd (shutdown scenario_device))) as (_ & _ & _ & _ & Hfinal).
  split; [split; [reflexivity | apply Honly; reflexivity]|].
  split; [split; [reflexivity | apply Hfinal; reflexivity]|].
  apply (Hafter [DoRecv; DoShutdown]).
Defined.

(** ** Address strings *)

Lemma split_on_nonempty sep s : split_on sep s <> [].
Proof.
  destruct s as [|c s]; simpl; [done|].
  destruct (Ascii.eqb c sep); [done|]. by destruct (split_on sep s).
Qed.

Lemma join_cons sep g g' gs :
  join sep (g :: g' :: gs) = g +:+ String sep (join sep (g' :: gs)).
Proof. done. Qed.

Lemma join_split_on sep s : join sep (split_on sep s) = s.
Proof.
  induction s as [|c s IH]; [done|]. simpl.
  destruct (Ascii.eqb c sep) eqn:E.
  - apply Ascii.eqb_eq in E as ->.
    destruct (split_on sep s) as [|g gs] eqn:Hs; [by apply split_on_nonempty in Hs|].
    rewrite join_cons, IH. done.
  - destruct (split_on sep s) as [|g gs] eqn:Hs; [by apply split_on_nonempty in Hs|].
    destruct gs as [|g' gs].
    + simpl in *. by rewrite IH.
    + rewrite join_cons in *. by rewrite <- IH.
Qed.

(** A group that holds no separator splits into itself. *)
Lemma split_on_group sep g rest :
  split_on sep g = [g] ->
  split_on sep (g +:+ String sep rest) = g :: split_on sep rest.
Proof.
  induction g as [|c g IH]; simpl.
  - intros _. by rewrite Ascii.eqb_refl.
  - destruct (Ascii.eqb c sep) eqn:E; [done|].
    destruct (split_on sep g) as [|g0 gs0] eqn:Hs; [by apply split_on_nonempty in Hs|].
    intros [= -> ->]. change (String c g +:+ String sep rest)
      with (String c (g +:+ String sep rest)).
    simpl. rewrite ?E. by rewrite IH.
Qed.

Lemma split_on_join sep gs :
  gs <> [] -> Forall (fun g => split_on sep g = [g]) gs ->
  split_on sep (join sep gs) = gs.
Proof.
  intros Hne H. induction H as [|g gs Hg Hgs IH]; [done|].
  destruct gs as [|g' gs]; [done|].
  rewrite join_cons, split_on_group by done. f_equal. by apply IH.
Qed.

Lemma string_map_app f a b :
  string_map f (a +:+ b) = string_map f a +:+ string_map f b.
Proof.
  induction a as [|c a IH]; [done|].
  change (String c a +:+ b) with (String c (a +:+ b)). simpl.
  rewrite IH. done.
Qed.

Lemma string_map_join f sep gs :
  f sep = sep -> string_map f (join sep gs) = join sep (map (string_map f) gs).
Proof.
  intros Hsep. induction gs as [|g gs IH]; [done|].
  destruct gs as [|g' gs]; [done|].
  rewrite join_cons, string_map_app.
  change (string_map f (String sep (join sep (g' :: gs))))
    with (String (f sep) (string_map f (join sep (g' :: gs)))).
  by rewrite Hsep, IH.
Qed.

Lemma octets_le_length n x : length (octets_le n x) = n.
Proof. revert x. induction n as [|n IH]; intros x; simpl; by rewrite ?IH. Qed.

Lemma octets_le_range n x : Forall byte_range (octets_le n x).
Proof.
  revert x. induction n as [|n IH]; intros x; simpl; constructor; [|done].
  unfold byte_range. apply Z.mod_pos_bound. lia.
Qed.

Lemma of_octets_le_octets_le n x :
  0 <= x < 256 ^ Z.of_nat n -> of_octets_le (octets_le n x) = x.
Proof.
  revert x. induction n as [|n IH]; intros x Hx; simpl.
  - change (256 ^ Z.of_nat 0) with 1 in Hx. lia.
  - rewrite Nat2Z.inj_succ, Z.pow_succ_r in Hx by lia.
    rewrite IH.
    + pose proof (Z.div_mod x 256). lia.
    + split; [apply Z.div_pos; lia | apply Z.div_lt_upper_bound; lia].
Qed.

Lemma octets_le_of_octets_le os :
  Forall byte_range os ->
  octets_le (length os) (of_octets_le os) = os /\
  0 <= of_octets_le os < 256 ^ Z.of_nat (length os).
Proof.
  induction 1 as [|o os Ho _ [IH1 IH2]]; [done|].
  unfold byte_range in Ho. cbn [length octets_le of_octets_le].
  rewrite Nat2Z.inj_succ, Z.pow_succ_r by lia.
  assert ((o + 256 * of_octets_le os) mod 256 = o) as ->.
  { symmetry. apply (Z.mod_unique_pos _ 256 (of_octets_le os) o); lia. }
  assert ((o + 256 * of_octets_le os) / 256 = of_octets_le os) as ->.
  { symmetry. apply (Z.div_unique_pos _ 256 (of_octets_le os) o); lia. }
  rewrite IH1. split; [done | lia].
Qed.

(** A codec of fixed-width addresses: [n] groups of one byte each, joined
    by [sep]; [read] is a left inverse of [show] on bytes, accepts nothing
    but bytes, and what it accepts is the printed form up to [canon]. *)
Section Codec.
Variables (sep : ascii) (n : nat) (show : Z -> string) (read : string -> option Z).
Variable canon : ascii -> ascii.
Hypothesis n_pos : n <> O.
Hypothesis canon_sep : canon sep = sep.
Hypothesis show_group : forall o, byte_range o -> split_on sep (show o) = [show o].
Hypothesis read_show : forall o, byte_range o -> read (show o) = Some o.
Hypothesis show_read :
  forall g o, read g = Some o -> byte_range o /\ show o = string_map canon g.

Lemma parse_render raw :
  0 <= raw < 256 ^ Z.of_nat n -> parse sep n read (render sep n show raw) = Some raw.
Proof.
  intros Hraw. unfold parse, render.
  assert (Forall byte_range (octets n raw)) as Hr
    by apply Forall_reverse, octets_le_range.
  assert (length (octets n raw) = n) as Hlen
    by (unfold octets; by rewrite length_reverse, octets_le_length).
  rewrite split_on_join.
  - rewrite length_map, Hlen, Nat.eqb_refl.
    rewrite (mapM_Some_2 read (map show (octets n raw)) (octets n raw)).
    + simpl. unfold of_octets, octets. rewrite reverse_involutive.
      by rewrite of_octets_le_octets_le.
    + apply Forall2_fmap_l, Forall_Forall2_diag.
      eapply Forall_impl; [exact Hr | exact read_show].
  - intros Hnil. apply (f_equal length) in Hnil.
    rewrite length_map, Hlen in Hnil. done.
  - apply Forall_fmap. eapply Forall_impl; [exact Hr | exact show_group].
Qed.

Lemma render_parse s raw :
  parse sep n read s = Some raw ->
  render sep n show raw = string_map canon s /\ 0 <= raw < 256 ^ Z.of_nat n.
Proof.
  unfold parse, render. destruct (Nat.eqb _ n) eqn:Hlen; [|done].
  apply Nat.eqb_eq in Hlen.
  destruct (mapM read (split_on sep s)) as [os|] eqn:Hos; [|done].
  intros [= <-]. apply mapM_Some_1 in Hos.
  assert (length os = n) as Hn by (by rewrite <- (Forall2_length _ _ _ Hos)).
  assert (Forall byte_range os) as Hr.
  { eapply Forall2_Forall_r; [exact Hos|]. apply Forall_true.
    intros g o Hgo. by apply show_read in Hgo as [? _]. }
  assert (map show os = map (string_map canon) (split_on sep s)) as Hshow.
  { clear Hlen Hn Hr. induction Hos as [|g o gs os Hgo _ IH]; [done|].
    simpl. apply show_read in Hgo as [_ ->]. by rewrite IH. }
  apply Forall_reverse in Hr.
  destruct (octets_le_of_octets_le _ Hr) as [Ho Hb].
  rewrite length_reverse, Hn in Ho, Hb.
  split; [|exact Hb].
  unfold octets, of_octets. rewrite Ho, reverse_involutive, Hshow.
  rewrite <- string_map_join by done. by rewrite join_split_on.
Qed.
End Codec.

(** A property of bytes that can be decided holds of every byte once it
    has been checked on each of the 256. *)
Lemma byte_cases (P : Z -> Prop) `{!forall o, Decision (P o)} :
  bool_decide (Forall P (seqZ 0 256)) = true -> forall o, byte_range o -> P o.
Proof.
  intros Hall o Ho. apply bool_decide_eq_true_1 in Hall.
  rewrite Forall_seqZ in Hall. apply Hall. unfold byte_range in Ho. lia.
Qed.

Lemma show_hex_group o : byte_range o -> split_on ":" (show_hex o) = [show_hex o].
Proof.
  revert o. apply (byte_cases (fun o => split_on ":" (show_hex o) = [show_hex o])).
  by vm_compute.
Qed.

Lemma read_show_hex o : byte_range o -> read_hex (show_hex o) = Some o.
Proof.
  revert o. apply (byte_cases (fun o => read_hex (show_hex o) = Some o)).
  by vm_compute.
Qed.

Lemma show_dec_group o : byte_range o -> split_on "." (show_dec o) = [show_dec o].
Proof.
  revert o. apply (byte_cases (fun o => split_on "." (show_dec o) = [show_dec o])).
  by vm_compute.
Qed.

Lemma read_show_dec o : byte_range o -> read_dec (show_dec o) = Some o.
Proof.
  revert o. apply (byte_cases (fun o => read_dec (show_dec o) = Some o)).
  by vm_compute.
Qed.

Ltac each_ascii c :=
  destruct c as [[] [] [] [] [] [] [] []].

Lemma hex_value_inv c d :
  hex_value c = Some d -> 0 <= d < 16 /\ hex_char d = lower_ascii c.
Proof.
  intros H.
  assert (match hex_value c with
          | Some d' => bool_decide (0 <= d' < 16 /\ hex_char d' = lower_ascii c)
          | None => true
          end = true) as Hc by (each_ascii c; vm_compute; reflexivity).
  rewrite H in Hc. by apply bool_decide_eq_true_1 in Hc.
Qed.

Lemma digit_value_inv c d :
  digit_value c = Some d -> 0 <= d < 10 /\ digit_char d = c.
Proof.
  intros H.
  assert (match digit_value c with
          | Some d' => bool_decide (0 <= d' < 10 /\ digit_char d' = c)
          | None => true
          end = true) as Hc by (each_ascii c; vm_compute; reflexivity).
  rewrite H in Hc. by apply bool_decide_eq_true_1 in Hc.
Qed.

Lemma show_read_hex g o :
  read_hex g = Some o -> byte_range o /\ show_hex o = string_map lower_ascii g.
Proof.
  destruct g as [|c1 [|c2 [|c3 g]]]; try done. simpl.
  destruct (hex_value c1) as [h|] eqn:H1; [|done].
  destruct (hex_value c2) as [l|] eqn:H2; [|done].
  intros [= <-].
  apply hex_value_inv in H1 as [Hh <-]. apply hex_value_inv in H2 as [Hl <-].
  unfold byte_range, show_hex. split; [lia|].
  assert ((16 * h + l) / 16 = h) as ->
    by (symmetry; apply (Z.div_unique_pos _ 16 h l); lia).
  assert ((16 * h + l) mod 16 = l) as ->
    by (symmetry; apply (Z.mod_unique_pos _ 16 h l); lia).
  done.
Qed.

Lemma digit_cases d :
  0 <= d < 10 ->
  d = 0 \/ d = 1 \/ d = 2 \/ d = 3 \/ d = 4 \/ d = 5 \/ d = 6 \/ d = 7 \/ d = 8 \/ d = 9.
Proof. lia. Qed.

Ltac each_digit H :=
  apply digit_cases in H;
  destruct H as [->|[->|[->|[->|[->|[->|[->|[->|[->| ->]]]]]]]]].

Lemma string_map_id g : string_map (fun c => c) g = g.
Proof. induction g as [|c g IH]; simpl; by rewrite ?IH. Qed.

Lemma show_read_dec g o :
  read_dec g = Some o -> byte_range o /\ show_dec o = string_map (fun c => c) g.
Proof.
  rewrite string_map_id.
  destruct g as [|c1 [|c2 [|c3 [|c4 g]]]]; try done; simpl.
  - intros H1. apply digit_value_inv in H1 as [Hd <-].
    each_digit Hd; by vm_compute.
  - destruct (digit_value c1) as [d1|] eqn:H1; [|done].
    destruct (digit_value c2) as [d2|] eqn:H2; [|done].
    apply digit_value_inv in H1 as [Hd1 <-]. apply digit_value_inv in H2 as [Hd2 <-].
    each_digit Hd1; each_digit Hd2; simpl; intros H; try discriminate H;
      injection H as <-; by vm_compute.
  - destruct (digit_value c1) as [d1|] eqn:H1; [|done].
    destruct (digit_value c2) as [d2|] eqn:H2; [|done].
    destruct (digit_value c3) as [d3|] eqn:H3; [|done].
    apply digit_value_inv in H1 as [Hd1 <-]. apply digit_value_inv in H2 as [Hd2 <-].
    apply digit_value_inv in H3 as [Hd3 <-].
    each_digit Hd1; each_digit Hd2; each_digit Hd3; simpl; intros H;
      try discriminate H; injection H as <-; by vm_compute.
Qed.

Lemma EthAddr_parse_to_string e :
  0 <= eth_raw e < 2 ^ 48 -> EthAddr_parse (EthAddr_to_string e) = Some e.
Proof.
  intros He. unfold EthAddr_parse, EthAddr_to_string.
  rewrite (parse_render ":" 6 show_hex read_hex);
    auto using show_hex_group, read_show_hex.
  by destruct e.
Qed.

Lemma IPAddr_parse_to_string a :
  0 <= ip_raw a < 2 ^ 32 -> IPAddr_parse (IPAddr_to_string a) = Some a.
Proof.
  intros Ha. unfold IPAddr_parse, IPAddr_to_string.
  rewrite (parse_render "." 4 show_dec read_dec);
    auto using show_dec_group, read_show_dec.
  by destruct a.
Qed.

Lemma EthAddr_to_string_parse s e :
  EthAddr_parse s = Some e ->
  EthAddr_to_string e = canonical_mac s /\ 0 <= eth_raw e < 2 ^ 48.
Proof.
  unfold EthAddr_parse. destruct (parse ":" 6 read_hex s) as [raw|] eqn:H; [|done].
  intros [= <-].
  by apply (render_parse ":" 6 show_hex read_hex lower_ascii eq_refl show_read_hex) in H.
Qed.

Lemma IPAddr_to_string_parse s a :
  IPAddr_parse s = Some a ->
  IPAddr_to_string a = canonical_ip s /\ 0 <= ip_raw a < 2 ^ 32.
Proof.
  unfold IPAddr_parse. destruct (parse "." 4 read_dec s) as [raw|] eqn:H; [|done].
  intros [= <-].
  apply (render_parse "." 4 show_dec read_dec (fun c => c) eq_refl show_read_dec) in H.
  by rewrite string_map_id in H.
Qed.

(** C8: for a valid MAC address string, and for a valid IPv4 address
    string, rendering the parsed address gives the canonical form of the
    string, and parsing that rendering again gives the address of the first
    parse. *)
Theorem address_round_trip :
  (forall s e, EthAddr_parse s = Some e ->
     EthAddr_to_string e = canonical_mac s /\
     EthAddr_parse (EthAddr_to_string e) = Some e) /\
  (forall s a, IPAddr_parse s = Some a ->
     IPAddr_to_string a = canonical_ip s /\
     IPAddr_parse (IPAddr_to_string a) = Some a).
Proof.
  split.
  - intros s e H. apply EthAddr_to_string_parse in H as [H1 H2].
    split; [done | by apply EthAddr_parse_to_string].
  - intros s a H. apply IPAddr_to_string_parse in H as [H1 H2].
    split; [done | by apply IPAddr_parse_to_string].
Qed.

Lemma address_round_trip_witness :
  (EthAddr_parse "AA:bb:0C:00:01:fF" = Some (MkEthAddr 187720336933375) /\
   EthAddr_to_string (MkEthAddr 187720336933375) = "aa:bb:0c:00:01:ff" /\
   EthAddr_parse (EthAddr_to_string (MkEthAddr 187720336933375)) =
     Some (MkEthAddr 187720336933375)) /\
  (IPAddr_parse "10.0.0.255" = Some (MkIPAddr 167772415) /\
   IPAddr_to_string (MkIPAddr 167772415) = "10.0.0.255" /\
   IPAddr_parse (IPAddr_to_string (MkIPAddr 167772415)) = Some (MkIPAddr 167772415)).
Proof.
  destruct address_round_trip as (Hmac & Hip).
  split.
  - split; [reflexivity|].
    exact (Hmac "AA:bb:0C:00:01:fF" (MkEthAddr 187720336933375) eq_refl).
  - split; [reflexivity|].
    exact (Hip "10.0.0.255" (MkIPAddr 167772415) eq_refl).
Defined.

(** * Further properties of Interface *)

Section InterfaceAlgebra.
Context `{AL : AddressLib}.

(** Each setter stores the coerced value in its own field. *)
Lemma set_ethaddr_coerce self v :
  set_ethaddr self v =
    result_map (with_ethaddr self)
      (coerce isinstance_EthAddr (fun v => result_map VEth (EthAddr_new v))
         "00:00:00:00:00:00" v).
Proof.
  unfold set_ethaddr, coerce, result_map, result_bind.
  repeat case_match; simplify_eq; done.
Qed.

Lemma set_ipaddr_coerce self v :
  set_ipaddr self v =
    result_map (with_ipaddr self)
      (coerce isinstance_IPAddr (fun v => result_map VIP (IPAddr_new v)) "0.0.0.0" v).
Proof.
  unfold set_ipaddr, coerce, result_map, result_bind.
  repeat case_match; simplify_eq; done.
Qed.

Lemma set_netmask_coerce self v :
  set_netmask self v =
    result_map (with_netmask self)
      (coerce isinstance_IPAddr (fun v => result_map VIP (IPAddr_new v))
         "255.255.255.255" v).
Proof.
  unfold set_netmask, coerce, result_map, result_bind.
  repeat case_match; simplify_eq; done.
Qed.

(** A coerced value is never None, and is a str only as the default. *)
Lemma coerce_ok typed (new : value -> result value) dflt v x :
  (forall u t, new u = Ok t -> typed t = true) ->
  (forall u, typed u = true -> isinstance_str u = false /\ is_None u = false) ->
  coerce typed new dflt v = Ok x -> field_ok dflt x.
Proof.
  intros Hnew Htyped. unfold coerce, field_ok.
  destruct (typed v) eqn:Ht.
  - intros [= <-]. destruct (Htyped v Ht) as [Hs Hn].
    split; [done|]. intros s ->. done.
  - destruct (isinstance_str v) eqn:Hs.
    + intros Hx. apply Hnew, Htyped in Hx as [Hxs Hxn].
      split; [done|]. intros s ->. done.
    + destruct (is_None v) eqn:Hn; intros [= <-].
      * split; [done|]. by intros s [= <-].
      * split; [done|]. intros s ->. done.
Qed.

Lemma set_ethaddr_field_ok self v self' :
  set_ethaddr self v = Ok self' -> field_ok "00:00:00:00:00:00" (ethaddr self').
Proof.
  rewrite set_ethaddr_coerce. unfold result_map at 1, result_bind.
  destruct (coerce _ _ _ v) as [x|] eqn:Hx; [|done]. intros [= <-]. simpl.
  eapply coerce_ok; [| |exact Hx].
  - intros u t. unfold result_map, result_bind.
    destruct (EthAddr_new u); [|done]. by intros [= <-].
  - by intros [].
Qed.

Lemma set_ipaddr_field_ok self v self' :
  set_ipaddr self v = Ok self' -> field_ok "0.0.0.0" (ipaddr self').
Proof.
  rewrite set_ipaddr_coerce. unfold result_map at 1, result_bind.
  destruct (coerce _ _ _ v) as [x|] eqn:Hx; [|done]. intros [= <-]. simpl.
  eapply coerce_ok; [| |exact Hx].
  - intros u t. unfold result_map, result_bind.
    destruct (IPAddr_new u); [|done]. by intros [= <-].
  - by intros [].
Qed.

Lemma set_netmask_field_ok self v self' :
  set_netmask self v = Ok self' -> field_ok "255.255.255.255" (netmask self').
Proof.
  rewrite set_netmask_coerce. unfold result_map at 1, result_bind.
  destruct (coerce _ _ _ v) as [x|] eqn:Hx; [|done]. intros [= <-]. simpl.
  eapply coerce_ok; [| |exact Hx].
  - intros u t. unfold result_map, result_bind.
    destruct (IPAddr_new u); [|done]. by intros [= <-].
  - by intros [].
Qed.

Lemma Interface_init_ok n e i m self :
  Interface_init n e i m = Ok self -> iface_ok self.
Proof.
  intros H. apply Interface_init_inv in H as (s1 & s2 & H1 & H2 & H3).
  pose proof (set_ethaddr_field_ok _ _ _ H1) as F1.
  pose proof (set_ipaddr_field_ok _ _ _ H2) as F2.
  pose proof (set_netmask_field_ok _ _ _ H3) as F3.
  apply set_ipaddr_frame in H2 as (_ & E2 & _).
  apply set_netmask_frame in H3 as (_ & E3 & E3').
  unfold iface_ok. by rewrite E3, E2, E3'.
Qed.

Lemma iface_step_ok self op : iface_ok self -> iface_ok (iface_step self op).
Proof.
  intros (F1 & F2 & F3). destruct op as [a v|]; [|done]. simpl.
  destruct (Interface_setattr self a v) as [self'|] eqn:H; [|done].
  destruct a; simpl in H; [done| | |].
  - pose proof (set_ethaddr_field_ok _ _ _ H).
    apply set_ethaddr_frame in H as (_ & E1 & E2). unfold iface_ok. by rewrite E1, E2.
  - pose proof (set_ipaddr_field_ok _ _ _ H).
    apply set_ipaddr_frame in H as (_ & E1 & E2). unfold iface_ok. by rewrite E1, E2.
  - pose proof (set_netmask_field_ok _ _ _ H).
    apply set_netmask_frame in H as (_ & E1 & E2). unfold iface_ok. by rewrite E1, E2.
Qed.

Lemma iface_run_ok ops self : iface_ok self -> iface_ok (iface_run ops self).
Proof.
  revert self. induction ops as [|op ops IH]; intros self H; [done|].
  change (iface_run (op :: ops) self) with (iface_run ops (iface_step self op)).
  by apply IH, iface_step_ok.
Qed.

(** X1: after a successful construction and any sequence of attribute
    assignments, successful or not, no address field of the interface holds
    None, and an address field holds a str only if it is the default
    literal of that field. *)
Theorem address_fields_invariant n e i m self :
  Interface_init n e i m = Ok self ->
  forall ops, iface_ok (iface_run ops self).
Proof.
  intros H ops. by apply iface_run_ok, (Interface_init_ok n e i m).
Qed.





(** X3: assignments compose by field: a later assignment to a field
    overrides an earlier one to the same field, and successful assignments
    to two different fields give the same object in either order. *)
Theorem setters_compose self a b :
  (forall s1, set_ethaddr self a = Ok s1 -> set_ethaddr s1 b = set_ethaddr self b) /\
  (forall s1, set_ipaddr self a = Ok s1 -> set_ipaddr s1 b = set_ipaddr self b) /\
  (forall s1, set_netmask self a = Ok s1 -> set_netmask s1 b = set_netmask self b) /\
  (forall s1 s2, set_ethaddr self a = Ok s1 -> set_ipaddr s1 b = Ok s2 ->
     exists s1', set_ipaddr self b = Ok s1' /\ set_ethaddr s1' a = Ok s2) /\
  (forall s1 s2, set_ethaddr self a = Ok s1 -> set_netmask s1 b = Ok s2 ->
     exists s1', set_netmask self b = Ok s1' /\ set_ethaddr s1' a = Ok s2) /\
  (forall s1 s2, set_ipaddr self a = Ok s1 -> set_netmask s1 b = Ok s2 ->
     exists s1', set_netmask self b = Ok s1' /\ set_ipaddr s1' a = Ok s2).
Proof.
  repeat split; intros s1.
  - rewrite !set_ethaddr_coerce.
    destruct (coerce _ _ _ a); [|done]. intros [= <-]. by destruct (coerce _ _ _ b).
  - rewrite !set_ipaddr_coerce.
    destruct (coerce _ _ _ a); [|done]. intros [= <-]. by destruct (coerce _ _ _ b).
  - rewrite !set_netmask_coerce.
    destruct (coerce _ _ _ a); [|done]. intros [= <-]. by destruct (coerce _ _ _ b).
  - intros s2. rewrite set_ethaddr_coerce, !set_ipaddr_coerce.
    destruct (coerce _ _ _ a) as [x|] eqn:Ha; [|done]. intros [= <-].
    destruct (coerce _ _ _ b) as [y|] eqn:Hb; [|done]. intros [= <-].
    eexists. split; [done|]. by rewrite set_ethaddr_coerce, Ha.
  - intros s2. rewrite set_ethaddr_coerce, !set_netmask_coerce.
    destruct (coerce _ _ _ a) as [x|] eqn:Ha; [|done]. intros [= <-].
    destruct (coerce _ _ _ b) as [y|] eqn:Hb; [|done]. intros [= <-].
    eexists. split; [done|]. by rewrite set_ethaddr_coerce, Ha.
  - intros s2. rewrite set_ipaddr_coerce, !set_netmask_coerce.
    destruct (coerce _ _ _ a) as [x|] eqn:Ha; [|done]. intros [= <-].
    destruct (coerce _ _ _ b) as [y|] eqn:Hb; [|done]. intros [= <-].
    eexists. split; [done|]. by rewrite set_ipaddr_coerce, Ha.
Qed.

Lemma coerce_back typed new dflt v :
  isinstance_str v = false -> is_None v = false -> coerce typed new dflt v = Ok v.
Proof. unfold coerce. intros -> ->. by destruct (typed v). Qed.

(** X4: on an interface that was constructed and then reassigned in any
    way, assigning a field the value read from it changes nothing, unless
    that value is a str; it is then the default literal of the field, and the
    assignment hands it to the address constructor of the field. *)
Theorem assigning_back n e i m self :
  Interface_init n e i m = Ok self ->
  forall ops,
    let cur := iface_run ops self in
    (isinstance_str (ethaddr cur) = false -> set_ethaddr cur (ethaddr cur) = Ok cur) /\
    (isinstance_str (ipaddr cur) = false -> set_ipaddr cur (ipaddr cur) = Ok cur) /\
    (isinstance_str (netmask cur) = false -> set_netmask cur (netmask cur) = Ok cur) /\
    (isinstance_str (ethaddr cur) = true ->
       set_ethaddr cur (ethaddr cur) =
         result_map (fun a => with_ethaddr cur (VEth a))
           (EthAddr_new (VStr "00:00:00:00:00:00"))) /\
    (isinstance_str (ipaddr cur) = true ->
       set_ipaddr cur (ipaddr cur) =
         result_map (fun a => with_ipaddr cur (VIP a)) (IPAddr_new (VStr "0.0.0.0"))) /\
    (isinstance_str (netmask cur) = true ->
       set_netmask cur (netmask cur) =
         result_map (fun a => with_netmask cur (VIP a))
           (IPAddr_new (VStr "255.255.255.255"))).
Proof.
  intros H ops cur.
  assert (iface_ok cur) as ([N1 S1] & [N2 S2] & [N3 S3])
    by (by apply iface_run_ok, (Interface_init_ok n e i m)).
  repeat split; intros Hs.
  - rewrite set_ethaddr_coerce, coerce_back by done. by destruct cur.
  - rewrite set_ipaddr_coerce, coerce_back by done. by destruct cur.
  - rewrite set_netmask_coerce, coerce_back by done. by destruct cur.
  - destruct (ethaddr cur) as [|s| | | |] eqn:E; try done.
    rewrite (S1 s eq_refl). unfold set_ethaddr, result_map, result_bind. simpl.
    by destruct (EthAddr_new _).
  - destruct (ipaddr cur) as [|s| | | |] eqn:E; try done.
    rewrite (S2 s eq_refl). unfold set_ipaddr, result_map, result_bind. simpl.
    by destruct (IPAddr_new _).
  - destruct (netmask cur) as [|s| | | |] eqn:E; try done.
    rewrite (S3 s eq_refl). unfold set_netmask, result_map, result_bind. simpl.
    by destruct (IPAddr_new _).
Qed.

End InterfaceAlgebra.

Lemma address_fields_invariant_witness :
  Interface_init (AL := spec_address_lib) (VStr "eth0") VNone (VStr "10.0.0.1")
    (VInt 24) =
    Ok (MkInterface (VStr "eth0") (VStr "00:00:00:00:00:00")
          (VIP (MkIPAddr 167772161)) (VInt 24)) /\
  iface_ok (iface_run (AL := spec_address_lib)
              [OpAssign AEthaddr (VStr "zz"); OpAssign ANetmask VNone;
               OpAssign AIpaddr (VStr "10.0.0.2")]
              (MkInterface (VStr "eth0") (VStr "00:00:00:00:00:00")
                 (VIP (MkIPAddr 167772161)) (VInt 24))).
Proof.
  split; [reflexivity|].
  apply (address_fields_invariant (AL := spec_address_lib) (VStr "eth0") VNone
           (VStr "10.0.0.1") (VInt 24)). reflexivity.
Defined.


Lemma setters_compose_witness :
  set_ethaddr (AL := spec_address_lib) inhabitant (VStr "AA:AA:AA:AA:AA:AA") =
    Ok (with_ethaddr inhabitant (VEth (MkEthAddr 187649984473770))) /\
  set_ethaddr (AL := spec_address_lib)
    (with_ethaddr inhabitant (VEth (MkEthAddr 187649984473770))) VNone =
    set_ethaddr (AL := spec_address_lib) inhabitant VNone /\
  set_netmask (AL := spec_address_lib)
    (with_ethaddr inhabitant (VEth (MkEthAddr 187649984473770))) (VInt 8) =
    Ok (MkInterface VNone (VEth (MkEthAddr 187649984473770)) VNone (VInt 8)) /\
  exists s1',
    set_netmask (AL := spec_address_lib) inhabitant (VInt 8) = Ok s1' /\
    set_ethaddr (AL := spec_address_lib) s1' (VStr "AA:AA:AA:AA:AA:AA") =
      Ok (MkInterface VNone (VEth (MkEthAddr 187649984473770)) VNone (VInt 8)).
Proof.
  split; [reflexivity|]. split.
  - destruct (setters_compose (AL := spec_address_lib) inhabitant
                (VStr "AA:AA:AA:AA:AA:AA") VNone) as (H & _).
    apply H. reflexivity.
  - split; [reflexivity|].
    destruct (setters_compose (AL := spec_address_lib) inhabitant
                (VStr "AA:AA:AA:AA:AA:AA") (VInt 8)) as (_ & _ & _ & _ & H & _).
    apply (H (with_ethaddr inhabitant (VEth (MkEthAddr 187649984473770))));
      reflexivity.
Defined.

Lemma assigning_back_witness :
  Interface_init (AL := spec_address_lib) (VStr "eth0") VNone (VStr "10.0.0.1")
    (VInt 24) =
    Ok (MkInterface (VStr "eth0") (VStr "00:00:00:00:00:00")
          (VIP (MkIPAddr 167772161)) (VInt 24)) /\
  (isinstance_str (VIP (MkIPAddr 167772161)) = false /\
   set_ipaddr (AL := spec_address_lib)
     (MkInterface (VStr "eth0") (VStr "00:00:00:00:00:00")
        (VIP (MkIPAddr 167772161)) (VInt 24)) (VIP (MkIPAddr 167772161)) =
     Ok (MkInterface (VStr "eth0") (VStr "00:00:00:00:00:00")
           (VIP (MkIPAddr 167772161)) (VInt 24))) /\
  (isinstance_str (VStr "00:00:00:00:00:00") = true /\
   set_ethaddr (AL := spec_address_lib)
     (MkInterface (VStr "eth0") (VStr "00:00:00:00:00:00")
        (VIP (MkIPAddr 167772161)) (VInt 24)) (VStr "00:00:00:00:00:00") =
     Ok (MkInterface (VStr "eth0") (VEth (MkEthAddr 0))
           (VIP (MkIPAddr 167772161)) (VInt 24))).
Proof.
  split; [reflexivity|].
  destruct (assigning_back (AL := spec_address_lib) (VStr "eth0") VNone
              (VStr "10.0.0.1") (VInt 24) _ eq_refl []) as (_ & Hip & _ & Heth & _).
  split; [split; [reflexivity | apply Hip; reflexivity]|].
  split; [reflexivity | apply Heth; reflexivity].
Defined.


(** * Further properties of LLNetBase *)

Section DictInvariant.
Context {V : Type}.
Implicit Types (d : list (string * V)) (k : string) (v : V).

Lemma dict_get_Some_elem k v d : dict_get k d = Some v -> (k, v) ∈ d.
Proof.
  induction d as [|[k0 v0] d IH]; simpl; [done|].
  destruct (String.eqb k0 k) eqn:E.
  - apply String.eqb_eq in E as ->. intros [= ->]. apply list_elem_of_here.
  - intros H. apply list_elem_of_further. by apply IH.
Qed.

Lemma dict_keys_remove k k' d : k' ∈ dict_keys (dict_remove k d) -> k' ∈ dict_keys d.
Proof.
  induction d as [|[k0 v0] d IH]; simpl; [done|].
  destruct (String.eqb k0 k); simpl.
  - apply list_elem_of_further.
  - rewrite !elem_of_cons. intros [->|H]; [by left | right; by apply IH].
Qed.

Lemma dict_remove_NoDup k d :
  NoDup (dict_keys d) ->
  NoDup (dict_keys (dict_remove k d)) /\ dict_get k (dict_remove k d) = None.
Proof.
  induction d as [|[k0 v0] d IH]; simpl; [done|].
  rewrite NoDup_cons. intros [Hk0 Hd]. destruct (IH Hd) as [IH1 IH2].
  destruct (String.eqb k0 k) eqn:E; simpl.
  - apply String.eqb_eq in E as ->. split; [done|]. by apply dict_get_None.
  - rewrite E. split; [|done]. apply NoDup_cons. split; [|done].
    intros H. by apply Hk0, (dict_keys_remove k).
Qed.

Lemma dict_setitem_NoDup k v d :
  NoDup (dict_keys d) -> NoDup (dict_keys (dict_setitem k v d)).
Proof.
  induction d as [|[k0 v0] d IH]; simpl.
  - intros _. apply NoDup_singleton.
  - rewrite NoDup_cons. intros [Hk0 Hd].
    destruct (String.eqb k0 k) eqn:E; simpl.
    + by apply NoDup_cons.
    + apply NoDup_cons. split; [|by apply IH].
      intros H. apply Hk0. clear IH Hk0 Hd.
      induction d as [|[k1 v1] d IH]; simpl in *.
      * apply list_elem_of_singleton in H as ->. by rewrite String.eqb_refl in E.
      * destruct (String.eqb k1 k); simpl in *; [done|].
        apply elem_of_cons in H as [->|H]; [by left | right; by apply IH].
Qed.
End DictInvariant.

Lemma registry_step_NoDup self s op :
  NoDup (dict_keys (registry self s)) ->
  NoDup (dict_keys (registry self (registry_step self s op))).
Proof.
  intros H. destruct op as [k iface|k]; unfold registry_step.
  - rewrite registry_setitem. by apply dict_setitem_NoDup.
  - rewrite registry_delitem. destruct (dict_contains _ _); [|done].
    by apply dict_remove_NoDup.
Qed.

Lemma registry_step_other self other s op :
  devinfo self <> devinfo other ->
  registry other (registry_step self s op) = registry other s /\
  ifaces (registry_step self s op) = ifaces s.
Proof.
  intros Hne. destruct op as [k iface|k]; unfold registry_step.
  - unfold devinfo_setitem, bind, read_dict, write_dict, registry. simpl.
    by rewrite lookup_total_insert_ne.
  - unfold devinfo_delitem, bind, read_dict, write_dict, raise, registry.
    destruct (dict_contains _ _); simpl; [|done].
    by rewrite lookup_total_insert_ne.
Qed.

Lemma registry_run_other self other ops s :
  devinfo self <> devinfo other ->
  registry other (registry_run self ops s) = registry other s /\
  ifaces (registry_run self ops s) = ifaces s.
Proof.
  intros Hne. revert s. induction ops as [|op ops IH]; intros s; [done|].
  change (registry_run self (op :: ops) s)
    with (registry_run self ops (registry_step self s op)).
  destruct (IH (registry_step self s op)) as [-> ->].
  by apply registry_step_other.
Qed.

Section LookupFacts.
Context `{AL : AddressLib}.

Lemma interface_by_name_eq self n s :
  interface_by_name self n s =
    (match dict_get n (registry self s) with
     | Some l => Ok l
     | None => Raise (SwitchyException ("No device named " +:+ n))
     end, s).
Proof.
  destruct (dict_get n (registry self s)) as [l|] eqn:H.
  - by apply interface_by_name_found.
  - by apply interface_by_name_missing.
Qed.

(** The loop never fails and never writes; it stops at the first match. *)
Lemma first_iface_cases test items s :
  exists r,
    first_iface test items s = (Ok r, s) /\
    match r with
    | Some l => first_match s test items l
    | None => no_match s test items
    end.
Proof.
  induction items as [|[k l] items (r & Hr & IH)]; simpl.
  - exists None. split; [done | constructor].
  - unfold bind, read_iface. destruct (test (ifaces s !!! l)) eqn:Ht.
    + exists (Some l). split; [done|]. exists [], k, items.
      split; [done|]. split; [constructor | done].
    + exists r. split; [done|]. destruct r as [l'|].
      * destruct IH as (pre & k' & post & -> & Hpre & Hl').
        exists ((k, l) :: pre), k', post. split; [done|].
        split; [by constructor | done].
      * by constructor.
Qed.

Lemma first_match_registered s test items l :
  first_match s test items l -> l ∈ dict_values items /\ test (ifaces s !!! l) = true.
Proof.
  intros (pre & k & post & -> & _ & Hl). split; [|done].
  unfold dict_values. rewrite map_app. simpl.
  apply elem_of_app. right. apply list_elem_of_here.
Qed.

Lemma interface_by_ipaddr_eq self arg s :
  interface_by_ipaddr self arg s =
    (match IPAddr_new arg with
     | Raise e => Raise e
     | Ok a =>
         match fst (first_iface (owns_ip a) (registry self s) s) with
         | Ok (Some l) => Ok l
         | _ => Raise (SwitchyException ("No device has IP address " +:+ IPAddr_str a))
         end
     end, s).
Proof.
  unfold interface_by_ipaddr, bind, lift, read_dict. fold (registry self s).
  destruct (IPAddr_new arg) as [a|e]; [|done].
  change (fun iface => py_eq (ipaddr iface) (VIP a)) with (owns_ip a).
  destruct (first_iface_cases (owns_ip a) (registry self s) s) as (r & -> & _).
  destruct r as [l|]; [done|]. simpl. unfold raise.
  change (py_format "No device has IP address {}" [py_str (VIP a)])
    with (Ok ("No device has IP address " +:+ IPAddr_str a +:+ "")).
  by rewrite string_app_empty_r.
Qed.

Lemma interface_by_macaddr_eq self arg s :
  interface_by_macaddr self arg s =
    (match EthAddr_new arg with
     | Raise e => Raise e
     | Ok a =>
         match fst (first_iface (owns_mac a) (registry self s) s) with
         | Ok (Some l) => Ok l
         | _ => Raise (SwitchyException ("No device has MAC address " +:+ EthAddr_str a))
         end
     end, s).
Proof.
  unfold interface_by_macaddr, bind, lift, read_dict. fold (registry self s).
  destruct (EthAddr_new arg) as [a|e]; [|done].
  change (fun iface => py_eq (ethaddr iface) (VEth a)) with (owns_mac a).
  destruct (first_iface_cases (owns_mac a) (registry self s) s) as (r & -> & _).
  destruct r as [l|]; [done|]. simpl. unfold raise.
  change (py_format "No device has MAC address {}" [py_str (VEth a)])
    with (Ok ("No device has MAC address " +:+ EthAddr_str a +:+ "")).
  by rewrite string_app_empty_r.
Qed.

(** X5: no lookup writes: interfaces(), the enumeration of its view, and
    the lookups by name, by IP address and by MAC address hand back the
    store they were given, whether they return or raise. *)
Theorem lookups_leave_the_store self s :
  snd (interfaces self s) = s /\
  (forall view, snd (view_list view s) = s) /\
  (forall n, snd (interface_by_name self n s) = s) /\
  (forall arg, snd (interface_by_ipaddr self arg s) = s) /\
  (forall arg, snd (interface_by_macaddr self arg s) = s).
Proof.
  split; [done|]. split; [by intros []|]. split; [|split]; intros x.
  - by rewrite interface_by_name_eq.
  - by rewrite interface_by_ipaddr_eq.
  - by rewrite interface_by_macaddr_eq.
Qed.

(** X6: the outcome of a lookup by address says what the registry holds.
    A returned interface is the first one in enumeration order that owns
    the constructed address; an exception is either the one of the address
    constructor, or the SwitchyException with the rendered address, and
    then no registered interface owns that address. *)
Theorem lookup_by_address_outcome self arg s :
  (forall l, fst (interface_by_ipaddr self arg s) = Ok l ->
     exists a, IPAddr_new arg = Ok a /\
       first_match s (owns_ip a) (registry self s) l) /\
  (forall x, fst (interface_by_ipaddr self arg s) = Raise x ->
     IPAddr_new arg = Raise x \/
     exists a, IPAddr_new arg = Ok a /\
       no_match s (owns_ip a) (registry self s) /\
       x = SwitchyException ("No device has IP address " +:+ IPAddr_str a)) /\
  (forall l, fst (interface_by_macaddr self arg s) = Ok l ->
     exists a, EthAddr_new arg = Ok a /\
       first_match s (owns_mac a) (registry self s) l) /\
  (forall x, fst (interface_by_macaddr self arg s) = Raise x ->
     EthAddr_new arg = Raise x \/
     exists a, EthAddr_new arg = Ok a /\
       no_match s (owns_mac a) (registry self s) /\
       x = SwitchyException ("No device has MAC address " +:+ EthAddr_str a)).
Proof.
  rewrite interface_by_ipaddr_eq, interface_by_macaddr_eq. simpl.
  split; [|split; [|split]].
  - intros l. destruct (IPAddr_new arg) as [a|e]; [|done].
    destruct (first_iface_cases (owns_ip a) (registry self s) s) as (r & -> & Hr).
    destruct r as [l'|]; [|done]. intros [= <-]. by exists a.
  - intros x. destruct (IPAddr_new arg) as [a|e]; [|intros [= <-]; by left].
    destruct (first_iface_cases (owns_ip a) (registry self s) s) as (r & -> & Hr).
    destruct r as [l'|]; [done|]. intros [= <-]. right. by exists a.
  - intros l. destruct (EthAddr_new arg) as [a|e]; [|done].
    destruct (first_iface_cases (owns_mac a) (registry self s) s) as (r & -> & Hr).
    destruct r as [l'|]; [|done]. intros [= <-]. by exists a.
  - intros x. destruct (EthAddr_new arg) as [a|e]; [|intros [= <-]; by left].
    destruct (first_iface_cases (owns_mac a) (registry self s) s) as (r & -> & Hr).
    destruct r as [l'|]; [done|]. intros [= <-]. right. by exists a.
Qed.

(** X7: every interface a lookup returns is one that interfaces()
    enumerates: the lookup by name returns the object registered under that
    name, and the lookups by address return a registered object. *)
Theorem lookups_return_registered_interfaces self s l :
  exists view ls,
    interfaces self s = (Ok view, s) /\ view_list view s = (Ok ls, s) /\
    (forall n, fst (interface_by_name self n s) = Ok l ->
       (n, l) ∈ registry self s /\ l ∈ ls) /\
    (forall arg, fst (interface_by_ipaddr self arg s) = Ok l -> l ∈ ls) /\
    (forall arg, fst (interface_by_macaddr self arg s) = Ok l -> l ∈ ls).
Proof.
  exists (DictValues (devinfo self)), (dict_values (registry self s)).
  split; [done|]. split; [done|]. split; [|split].
  - intros n. rewrite interface_by_name_eq. simpl.
    destruct (dict_get n (registry self s)) as [l'|] eqn:H; [|done].
    intros [= ->]. apply dict_get_Some_elem in H. split; [done|].
    unfold dict_values. apply list_elem_of_fmap. by exists (n, l).
  - intros arg. rewrite interface_by_ipaddr_eq. simpl.
    destruct (IPAddr_new arg) as [a|e]; [|done].
    destruct (first_iface_cases (owns_ip a) (registry self s) s) as (r & -> & Hr).
    destruct r as [l'|]; [|done]. intros [= <-].
    by apply first_match_registered in Hr as [? _].
  - intros arg. rewrite interface_by_macaddr_eq. simpl.
    destruct (EthAddr_new arg) as [a|e]; [|done].
    destruct (first_iface_cases (owns_mac a) (registry self s) s) as (r & -> & Hr).
    destruct r as [l'|]; [|done]. intros [= <-].
    by apply first_match_registered in Hr as [? _].
Qed.

End LookupFacts.

Section NodesAndObjects.
Context `{AL : AddressLib}.

(** The outcome of a lookup is a function of what the registry enumerates
    and of the objects it refers to. *)
Lemma first_iface_ext test items items' s s' :
  dict_values items = dict_values items' ->
  (forall l, l ∈ dict_values items -> ifaces s !!! l = ifaces s' !!! l) ->
  fst (first_iface test items s) = fst (first_iface test items' s').
Proof.
  revert items'. induction items as [|[k l] items IH]; intros [|[k' l'] items'];
    try done; simpl.
  intros [= <- Hv] Hobj. unfold bind, read_iface.
  rewrite <- (Hobj l) by apply list_elem_of_here.
  destruct (test (ifaces s !!! l)); [done|].
  apply IH; [done|]. intros l0 Hl0. apply Hobj. by apply list_elem_of_further.
Qed.

(** X8: a node starts empty and apart: __init__ ignores its name
    argument, leaves the callback unset and the interface objects alone, and
    gives the node a registry of its own, in which nothing is enumerated and
    every lookup by name raises SwitchyException; the registry of a node
    that exists already is a different one and keeps its content. *)
Theorem new_node_is_empty nm s :
  exists self s',
    LLNetBase_init nm s = (Ok self, s') /\
    (forall nm', LLNetBase_init nm' s = (Ok self, s')) /\
    devupdown_callback self = None /\
    ifaces s' = ifaces s /\
    view_list (DictValues (devinfo self)) s' = (Ok [], s') /\
    (forall n, interface_by_name self n s' =
       (Raise (SwitchyException ("No device named " +:+ n)), s')) /\
    (forall other, devinfo other ∈ dom (dicts s) ->
       devinfo other <> devinfo self /\ registry other s' = registry other s).
Proof.
  eexists _, _. split; [reflexivity|]. split; [done|]. split; [done|].
  split; [done|].
  assert (forall i, registry (MkLLNetBase None (fresh (dom (dicts s))))
            (MkStore i (<[fresh (dom (dicts s)) := []]> (dicts s))) = []) as Hreg
    by (intros i; unfold registry; simpl; apply lookup_total_insert_eq).
  split; [|split].
  - unfold view_list, bind, read_dict, ret. simpl.
    by rewrite lookup_total_insert_eq.
  - intros n. rewrite interface_by_name_eq. by rewrite Hreg.
  - intros other Hother.
    assert (devinfo other <> fresh (dom (dicts s))) as Hne
      by (intros E; rewrite E in Hother; by apply is_fresh in Hother).
    split; [done|]. unfold registry. simpl. by rewrite lookup_total_insert_ne.
Qed.

(** X9: registries are per node: whatever is registered or removed on one
    node, a node with another registry keeps its registry, and each of its
    lookups gives what it gave before. *)
Theorem registries_are_separate self other s ops :
  devinfo self <> devinfo other ->
  let s' := registry_run self ops s in
  registry other s' = registry other s /\
  (forall n, fst (interface_by_name other n s') = fst (interface_by_name other n s)) /\
  (forall arg,
     fst (interface_by_ipaddr other arg s') = fst (interface_by_ipaddr other arg s)) /\
  (forall arg,
     fst (interface_by_macaddr other arg s') = fst (interface_by_macaddr other arg s)).
Proof.
  intros Hne s'. destruct (registry_run_other self other ops s Hne) as [Hreg Hobj].
  fold s' in Hreg, Hobj. split; [done|]. split; [|split]; intros x.
  - by rewrite !interface_by_name_eq, Hreg.
  - rewrite !interface_by_ipaddr_eq. simpl. destruct (IPAddr_new x) as [a|]; [|done].
    rewrite Hreg.
    by rewrite (first_iface_ext (owns_ip a) (registry other s) (registry other s) s' s)
      by (by try rewrite Hobj).
  - rewrite !interface_by_macaddr_eq. simpl. destruct (EthAddr_new x) as [a|]; [|done].
    rewrite Hreg.
    by rewrite (first_iface_ext (owns_mac a) (registry other s) (registry other s) s' s)
      by (by try rewrite Hobj).
Qed.

(** X10: removal undoes registration: in a registry with one entry per
    name, after del devinfo[n] the lookup of n raises SwitchyException,
    the lookup of every other name gives what it gave before, and the
    registry still has one entry per name. *)
Theorem removal_unregisters self s n :
  NoDup (dict_keys (registry self s)) ->
  let s' := snd (devinfo_delitem self n s) in
  fst (interface_by_name self n s') =
    Raise (SwitchyException ("No device named " +:+ n)) /\
  (forall m, m <> n ->
     fst (interface_by_name self m s') = fst (interface_by_name self m s)) /\
  NoDup (dict_keys (registry self s')).
Proof.
  intros Hnd s'. unfold s'. split; [|split].
  - rewrite interface_by_name_eq, registry_delitem. simpl.
    unfold dict_contains. destruct (dict_get n (registry self s)) eqn:H.
    + by destruct (dict_remove_NoDup n _ Hnd) as [_ ->].
    + by rewrite H.
  - intros m Hm. rewrite !interface_by_name_eq, registry_delitem. simpl.
    destruct (dict_contains _ _); [|done]. by rewrite dict_get_remove_ne.
  - rewrite registry_delitem. destruct (dict_contains _ _); [|done].
    by apply dict_remove_NoDup.
Qed.

Lemma iface_assign_store l a v s :
  dicts (snd (iface_assign l a v s)) = dicts s /\
  (forall l', l' <> l ->
     ifaces (snd (iface_assign l a v s)) !!! l' = ifaces s !!! l') /\
  name (ifaces (snd (iface_assign l a v s)) !!! l) = name (ifaces s !!! l).
Proof.
  unfold iface_assign, bind, read_iface, lift, write_iface.
  destruct (Interface_setattr (ifaces s !!! l) a v) as [self'|] eqn:H; simpl;
    [|done].
  split; [done|]. split.
  - intros l' Hne. by rewrite lookup_total_insert_ne.
  - rewrite lookup_total_insert_eq. destruct a; simpl in H; [done| | |].
    + by apply set_ethaddr_frame in H as (? & _).
    + by apply set_ipaddr_frame in H as (? & _).
    + by apply set_netmask_frame in H as (? & _).
Qed.

(** X11: assigning to an attribute of an interface object, whether it
    succeeds or raises, changes neither the registry of any node nor any
    other interface object nor the name of the object: every node
    enumerates the same interfaces and finds the same interface under each
    name as before. *)
Theorem assignment_keeps_the_registry self l a v s :
  let s' := snd (iface_assign l a v s) in
  registry self s' = registry self s /\
  (forall n, fst (interface_by_name self n s') = fst (interface_by_name self n s)) /\
  fst (view_list (DictValues (devinfo self)) s') =
    fst (view_list (DictValues (devinfo self)) s) /\
  (forall l', name (ifaces s' !!! l') = name (ifaces s !!! l')) /\
  (forall l', l' <> l -> ifaces s' !!! l' = ifaces s !!! l').
Proof.
  intros s'. destruct (iface_assign_store l a v s) as (Hd & Hother & Hname).
  fold s' in Hd, Hother, Hname.
  assert (registry self s' = registry self s) as Hreg
    by (unfold registry; by rewrite Hd).
  split; [done|]. split; [|split; [|split]].
  - intros n. by rewrite !interface_by_name_eq, Hreg.
  - unfold view_list, bind, read_dict, ret. simpl. by rewrite Hd.
  - intros l'. destruct (decide (l' = l)) as [->|Hne]; [done|]. by rewrite Hother.
  - done.
Qed.

Lemma first_iface_through_reference test pre k l post s s' :
  test (ifaces s' !!! l) = true ->
  (forall l', l' <> l -> ifaces s' !!! l' = ifaces s !!! l') ->
  Forall (fun kv => snd kv = l \/ test (ifaces s !!! snd kv) = false) pre ->
  fst (first_iface test (pre ++ (k, l) :: post) s') = Ok (Some l).
Proof.
  intros Hl Hother Hpre. induction Hpre as [|[k0 l0] pre H0 _ IH]; simpl in *.
  - unfold bind, read_iface. by rewrite Hl.
  - unfold bind, read_iface. destruct (decide (l0 = l)) as [->|Hne].
    + by rewrite Hl.
    + rewrite Hother by done. simpl in H0. destruct H0 as [E|E]; [done|]. by rewrite E.
Qed.

(** X12: the registry holds references, not copies: once an address has
    been assigned to a registered interface object through any reference to
    it, the lookup by that address returns this object, provided no other
    object enumerated before it owned the address already. *)
Theorem assignment_is_seen_by_lookups self s l v :
  forall pre k post,
    registry self s = pre ++ (k, l) :: post ->
    (forall arg a,
       IPAddr_new arg = Ok a ->
       let s' := snd (iface_assign l AIpaddr v s) in
       owns_ip a (ifaces s' !!! l) = true ->
       Forall (fun kv => snd kv = l \/ owns_ip a (ifaces s !!! snd kv) = false) pre ->
       fst (interface_by_ipaddr self arg s') = Ok l) /\
    (forall arg a,
       EthAddr_new arg = Ok a ->
       let s' := snd (iface_assign l AEthaddr v s) in
       owns_mac a (ifaces s' !!! l) = true ->
       Forall (fun kv => snd kv = l \/ owns_mac a (ifaces s !!! snd kv) = false) pre ->
       fst (interface_by_macaddr self arg s') = Ok l).
Proof.
  intros pre k post Hreg. split; intros arg a Ha s' Hl Hpre.
  - destruct (iface_assign_store l AIpaddr v s) as (Hd & Hother & _).
    fold s' in Hd, Hother.
    rewrite interface_by_ipaddr_eq, Ha. simpl.
    assert (registry self s' = registry self s) as ->
      by (unfold registry; by rewrite Hd).
    by rewrite Hreg, (first_iface_through_reference _ _ _ _ _ s s').
  - destruct (iface_assign_store l AEthaddr v s) as (Hd & Hother & _).
    fold s' in Hd, Hother.
    rewrite interface_by_macaddr_eq, Ha. simpl.
    assert (registry self s' = registry self s) as ->
      by (unfold registry; by rewrite Hd).
    by rewrite Hreg, (first_iface_through_reference _ _ _ _ _ s s').
Qed.

(** X13: a lookup by address does not look at names: two nodes whose
    registries enumerate the same interface objects in the same order give
    the same outcome for every address, whatever names the objects are
    registered under; nor does the lookup by name look at the objects. *)
Theorem lookups_by_address_ignore_names self other s :
  dict_values (registry self s) = dict_values (registry other s) ->
  (forall arg,
     fst (interface_by_ipaddr self arg s) = fst (interface_by_ipaddr other arg s)) /\
  (forall arg,
     fst (interface_by_macaddr self arg s) = fst (interface_by_macaddr other arg s)) /\
  (forall n s', registry self s' = registry self s ->
     fst (interface_by_name self n s') = fst (interface_by_name self n s)).
Proof.
  intros Hv. split; [|split].
  - intros arg. rewrite !interface_by_ipaddr_eq. simpl.
    destruct (IPAddr_new arg) as [a|]; [|done].
    by rewrite (first_iface_ext (owns_ip a) _ (registry other s) s s Hv).
  - intros arg. rewrite !interface_by_macaddr_eq. simpl.
    destruct (EthAddr_new arg) as [a|]; [|done].
    by rewrite (first_iface_ext (owns_mac a) _ (registry other s) s s Hv).
  - intros n s' Hreg. by rewrite !interface_by_name_eq, Hreg.
Qed.

End NodesAndObjects.

Lemma lookup_by_address_outcome_witness :
  (fst (interface_by_ipaddr (AL := spec_address_lib) scenario_net (VStr "10.0.0.2")
          scenario_store) = Ok 2%positive /\
   exists a, spec_IPAddr_new (VStr "10.0.0.2") = Ok a /\
     first_match scenario_store (owns_ip (AL := spec_address_lib) a)
       (registry scenario_net scenario_store) 2%positive) /\
  (fst (interface_by_macaddr (AL := spec_address_lib) scenario_net
          (VStr "CC:CC:CC:CC:CC:CC") scenario_store) =
     Raise (SwitchyException "No device has MAC address cc:cc:cc:cc:cc:cc") /\
   (spec_EthAddr_new (VStr "CC:CC:CC:CC:CC:CC") =
      Raise (SwitchyException "No device has MAC address cc:cc:cc:cc:cc:cc") \/
    exists a, spec_EthAddr_new (VStr "CC:CC:CC:CC:CC:CC") = Ok a /\
      no_match scenario_store (owns_mac (AL := spec_address_lib) a)
        (registry scenario_net scenario_store) /\
      SwitchyException "No device has MAC address cc:cc:cc:cc:cc:cc" =
        SwitchyException ("No device has MAC address " +:+ EthAddr_to_string a))).
Proof.
  split; (split; [reflexivity|]).
  - destruct (lookup_by_address_outcome (AL := spec_address_lib) scenario_net
                (VStr "10.0.0.2") scenario_store) as (H & _).
    apply H. reflexivity.
  - destruct (lookup_by_address_outcome (AL := spec_address_lib) scenario_net
                (VStr "CC:CC:CC:CC:CC:CC") scenario_store) as (_ & _ & _ & H).
    apply H. reflexivity.
Defined.

Lemma lookups_return_registered_interfaces_witness :
  fst (interface_by_name scenario_net "eth1" scenario_store) = Ok 2%positive /\
  ("eth1", 2%positive) ∈ registry scenario_net scenario_store.
Proof.
  split; [reflexivity|].
  destruct (lookups_return_registered_interfaces (AL := spec_address_lib)
              scenario_net scenario_store 2%positive)
    as (view & ls & _ & _ & Hname & _).
  exact (proj1 (Hname "eth1" eq_refl)).
Defined.

Lemma new_node_is_empty_witness :
  (devinfo scenario_net ∈ dom (dicts scenario_store)) /\
  exists self s',
    LLNetBase_init VNone scenario_store = (Ok self, s') /\
    devinfo scenario_net <> devinfo self /\
    registry scenario_net s' = registry scenario_net scenario_store.
Proof.
  assert (devinfo scenario_net ∈ dom (dicts scenario_store)) as Hdom.
  { apply elem_of_dom. exists [("eth0", 1%positive); ("eth1", 2%positive)].
    reflexivity. }
  split; [exact Hdom|].
  destruct (new_node_is_empty VNone scenario_store)
    as (self & s' & Hinit & _ & _ & _ & _ & _ & Hother).
  exists self, s'. split; [exact Hinit | exact (Hother scenario_net Hdom)].
Defined.

Lemma registries_are_separate_witness :
  devinfo scenario_other <> devinfo scenario_net /\
  registry scenario_net
    (registry_run scenario_other [Register "eth0" 9%positive; Unregister "eth0"]
       scenario_store) = registry scenario_net scenario_store.
Proof.
  assert (devinfo scenario_other <> devinfo scenario_net) as Hne by discriminate.
  split; [exact Hne|].
  exact (proj1 (registries_are_separate (AL := spec_address_lib) scenario_other
                  scenario_net scenario_store
                  [Register "eth0" 9%positive; Unregister "eth0"] Hne)).
Defined.

Lemma removal_unregisters_witness :
  NoDup (dict_keys (registry scenario_net scenario_store)) /\
  fst (interface_by_name scenario_net "eth0"
         (snd (devinfo_delitem scenario_net "eth0" scenario_store))) =
    Raise (SwitchyException "No device named eth0").
Proof.
  assert (NoDup (dict_keys (registry scenario_net scenario_store))) as Hnd.
  { change (dict_keys (registry scenario_net scenario_store))
      with ["eth0"; "eth1"].
    apply NoDup_cons. split; [|apply NoDup_singleton].
    intros H. apply list_elem_of_singleton in H. discriminate H. }
  split; [exact Hnd|].
  exact (proj1 (removal_unregisters scenario_net scenario_store "eth0" Hnd)).
Defined.

Lemma assignment_keeps_the_registry_witness :
  2%positive <> 1%positive /\
  ifaces (snd (iface_assign (AL := spec_address_lib) 1%positive AIpaddr
                 (VStr "10.9.9.9") scenario_store)) !!! 2%positive =
    ifaces scenario_store !!! 2%positive.
Proof.
  assert (2%positive <> 1%positive) as Hne by discriminate.
  split; [exact Hne|].
  destruct (assignment_keeps_the_registry (AL := spec_address_lib) scenario_net
              1%positive AIpaddr (VStr "10.9.9.9") scenario_store)
    as (_ & _ & _ & _ & Hother).
  exact (Hother 2%positive Hne).
Defined.

Lemma assignment_is_seen_by_lookups_witness :
  (registry scenario_net scenario_store =
     [("eth0", 1%positive)] ++ ("eth1", 2%positive) :: [] /\
   spec_IPAddr_new (VStr "10.0.0.7") = Ok (MkIPAddr 167772167) /\
   owns_ip (AL := spec_address_lib) (MkIPAddr 167772167)
     (ifaces (snd (iface_assign (AL := spec_address_lib) 2%positive AIpaddr
                     (VStr "10.0.0.7") scenario_store)) !!! 2%positive) = true /\
   Forall (fun kv => snd kv = 2%positive \/
             owns_ip (AL := spec_address_lib) (MkIPAddr 167772167)
               (ifaces scenario_store !!! snd kv) = false)
     [("eth0", 1%positive)]) /\
  fst (interface_by_ipaddr (AL := spec_address_lib) scenario_net (VStr "10.0.0.7")
         scenario_store) =
    Raise (SwitchyException "No device has IP address 10.0.0.7") /\
  fst (interface_by_ipaddr (AL := spec_address_lib) scenario_net (VStr "10.0.0.7")
         (snd (iface_assign (AL := spec_address_lib) 2%positive AIpaddr
                 (VStr "10.0.0.7") scenario_store))) = Ok 2%positive.
Proof.
  assert (Forall (fun kv => snd kv = 2%positive \/
                    owns_ip (AL := spec_address_lib) (MkIPAddr 167772167)
                      (ifaces scenario_store !!! snd kv) = false)
            [("eth0", 1%positive)]) as Hpre.
  { constructor; [right; reflexivity | constructor]. }
  split; [split; [reflexivity | split; [reflexivity | split; [reflexivity | exact Hpre]]]|].
  split; [reflexivity|].
  destruct (assignment_is_seen_by_lookups (AL := spec_address_lib) scenario_net
              scenario_store 2%positive (VStr "10.0.0.7")
              [("eth0", 1%positive)] "eth1" [] eq_refl) as (Hip & _).
  exact (Hip (VStr "10.0.0.7") (MkIPAddr 167772167) eq_refl eq_refl Hpre).
Defined.

Lemma lookups_by_address_ignore_names_witness :
  dict_values (registry scenario_net scenario_shared_store) =
    dict_values (registry scenario_other scenario_shared_store) /\
  dict_keys (registry scenario_net scenario_shared_store) <>
    dict_keys (registry scenario_other scenario_shared_store) /\
  fst (interface_by_macaddr (AL := spec_address_lib) scenario_net
         (VStr "bb:bb:bb:bb:bb:bb") scenario_shared_store) =
    fst (interface_by_macaddr (AL := spec_address_lib) scenario_other
           (VStr "bb:bb:bb:bb:bb:bb") scenario_shared_store).
Proof.
  split; [reflexivity|]. split; [discriminate|].
  destruct (lookups_by_address_ignore_names (AL := spec_address_lib) scenario_net
              scenario_other scenario_shared_store eq_refl) as (_ & Hmac & _).
  exact (Hmac (VStr "bb:bb:bb:bb:bb:bb")).
Defined.

Section DefaultsAndFormatting.
Context `{AL : AddressLib}.

Lemma Interface_init_defaults n e i m self :
  (Interface_init n VNone i m = Ok self -> ethaddr self = VStr "00:00:00:00:00:00") /\
  (Interface_init n e VNone m = Ok self -> ipaddr self = VStr "0.0.0.0").
Proof.
  split; intros H; apply Interface_init_inv in H as (s1 & s2 & H1 & H2 & H3).
  - apply set_ipaddr_frame in H2 as (_ & E2 & _).
    apply set_netmask_frame in H3 as (_ & E3 & _).
    rewrite E3, E2. unfold set_ethaddr in H1. by simplify_eq/=.
  - apply set_netmask_frame in H3 as (_ & _ & E3).
    rewrite E3. unfold set_ipaddr in H2. by simplify_eq/=.
Qed.

(** A str on the left of [==] leaves the answer to the address on the
    right. *)
Lemma py_eq_str_address s :
  (forall a, py_eq (VStr s) (VIP a) =
     match IPAddr_eq a (VStr s) with Some r => r | None => false end) /\
  (forall a, py_eq (VStr s) (VEth a) =
     match EthAddr_eq a (VStr s) with Some r => r | None => false end).
Proof. split; intros a; unfold py_eq; simpl; by case_match. Qed.

Lemma default_ip_owned a n e m self :
  Interface_init n e VNone m = Ok self ->
  owns_ip a self = match IPAddr_eq a (VStr "0.0.0.0") with Some r => r | None => false end.
Proof.
  intros H. destruct (Interface_init_defaults n e VNone m self) as [_ Hd].
  unfold owns_ip. rewrite (Hd H). apply py_eq_str_address.
Qed.

Lemma default_mac_owned a n i m self :
  Interface_init n VNone i m = Ok self ->
  owns_mac a self =
    match EthAddr_eq a (VStr "00:00:00:00:00:00") with Some r => r | None => false end.
Proof.
  intros H. destruct (Interface_init_defaults n VNone i m self) as [Hd _].
  unfold owns_mac. rewrite (Hd H). apply py_eq_str_address.
Qed.

(** X14: an address left at its default is compared as the str it is. On
    a node whose interfaces were all constructed with ipaddr=None, one
    comparison decides every lookup by IP address: when the __eq__ of the
    constructed address answers True to the str 0.0.0.0, the lookup returns
    the interface enumerated first; when it answers anything else, the
    lookup raises SwitchyException. Likewise for ethaddr=None, the str
    00:00:00:00:00:00 and the lookup by MAC address. *)
Theorem default_addresses_are_compared_as_str self s arg :
  (forall a,
     IPAddr_new arg = Ok a ->
     Forall (fun kv => exists n e m,
               Interface_init n e VNone m = Ok (ifaces s !!! snd kv))
       (registry self s) ->
     (IPAddr_eq a (VStr "0.0.0.0") = Some true ->
        forall k l rest, registry self s = (k, l) :: rest ->
        fst (interface_by_ipaddr self arg s) = Ok l) /\
     (IPAddr_eq a (VStr "0.0.0.0") <> Some true ->
        fst (interface_by_ipaddr self arg s) =
          Raise (SwitchyException ("No device has IP address " +:+ IPAddr_str a)))) /\
  (forall a,
     EthAddr_new arg = Ok a ->
     Forall (fun kv => exists n i m,
               Interface_init n VNone i m = Ok (ifaces s !!! snd kv))
       (registry self s) ->
     (EthAddr_eq a (VStr "00:00:00:00:00:00") = Some true ->
        forall k l rest, registry self s = (k, l) :: rest ->
        fst (interface_by_macaddr self arg s) = Ok l) /\
     (EthAddr_eq a (VStr "00:00:00:00:00:00") <> Some true ->
        fst (interface_by_macaddr self arg s) =
          Raise (SwitchyException ("No device has MAC address " +:+ EthAddr_str a)))).
Proof.
  split; intros a Ha Hall; (split; [intros Heq k l rest Hreg | intros Heq]).
  - rewrite interface_by_ipaddr_eq, Ha, Hreg. simpl. unfold bind, read_iface.
    rewrite Hreg in Hall. apply Forall_cons in Hall as [(n & e & m & Hinit) _].
    simpl in Hinit. by rewrite (default_ip_owned a n e m _ Hinit), Heq.
  - rewrite interface_by_ipaddr_eq, Ha. simpl.
    rewrite (first_iface_none (owns_ip a) (registry self s) s); [done|].
    eapply Forall_impl; [exact Hall|]. intros [k l] (n & e & m & Hinit). simpl in *.
    rewrite (default_ip_owned a n e m _ Hinit).
    by destruct (IPAddr_eq a (VStr "0.0.0.0")) as [[]|].
  - rewrite interface_by_macaddr_eq, Ha, Hreg. simpl. unfold bind, read_iface.
    rewrite Hreg in Hall. apply Forall_cons in Hall as [(n & i & m & Hinit) _].
    simpl in Hinit. by rewrite (default_mac_owned a n i m _ Hinit), Heq.
  - rewrite interface_by_macaddr_eq, Ha. simpl.
    rewrite (first_iface_none (owns_mac a) (registry self s) s); [done|].
    eapply Forall_impl; [exact Hall|]. intros [k l] (n & i & m & Hinit). simpl in *.
    rewrite (default_mac_owned a n i m _ Hinit).
    by destruct (EthAddr_eq a (VStr "00:00:00:00:00:00")) as [[]|].
Qed.

Lemma formatter_run_set calls st :
  fulldisp st = true -> fulldisp (formatter_run calls st) = true.
Proof.
  revert st. induction calls as [|c calls IH]; intros st H; [done|].
  change (formatter_run (c :: calls) st)
    with (formatter_run calls (formatter_step st c)).
  apply IH. by destruct c.
Qed.

(** format_pkt(pkt, cls) is str(pkt) for every packet and every cls,
    before and after any calls of full_display(); and once full_display()
    has been called the flag stays set, whatever is called afterwards. *)
Theorem format_pkt_is_str calls pkt cls :
  let st := formatter_run calls PacketFormatter_loaded in
  format_pkt st pkt cls = py_str pkt /\
  (forall later, fulldisp (formatter_run later (full_display st)) = true) /\
  (forall later cls',
     format_pkt (formatter_run later (full_display st)) pkt cls' =
       format_pkt PacketFormatter_loaded pkt cls).
Proof.
  intros st. split; [done|]. split; [|done].
  intros later. by apply formatter_run_set.
Qed.

End DefaultsAndFormatting.

Lemma default_addresses_are_compared_as_str_witness :
  ((spec_IPAddr_new (VStr "0.0.0.0") = Ok (MkIPAddr 0) /\
    Forall (fun kv => exists n e m,
              Interface_init (AL := spec_address_lib) n e VNone m =
                Ok (ifaces defaults_store !!! snd kv))
      (registry defaults_net defaults_store) /\
    spec_IPAddr_eq (MkIPAddr 0) (VStr "0.0.0.0") <> Some true) /\
   fst (interface_by_ipaddr (AL := spec_address_lib) defaults_net (VStr "0.0.0.0")
          defaults_store) =
     Raise (SwitchyException "No device has IP address 0.0.0.0")) /\
  ((spec_EthAddr_new (VStr "00:00:00:00:00:00") = Ok (MkEthAddr 0) /\
    Forall (fun kv => exists n i m,
              Interface_init (AL := coercing_address_lib) n VNone i m =
                Ok (ifaces defaults_store !!! snd kv))
      (registry defaults_net defaults_store) /\
    coercing_EthAddr_eq (MkEthAddr 0) (VStr "00:00:00:00:00:00") = Some true /\
    registry defaults_net defaults_store = ("eth0", 1%positive) :: []) /\
   fst (interface_by_macaddr (AL := coercing_address_lib) defaults_net
          (VStr "00:00:00:00:00:00") defaults_store) = Ok 1%positive).
Proof.
  assert (Forall (fun kv => exists n e m,
                    Interface_init (AL := spec_address_lib) n e VNone m =
                      Ok (ifaces defaults_store !!! snd kv))
            (registry defaults_net defaults_store)) as Hall.
  { change (registry defaults_net defaults_store) with [("eth0", 1%positive)].
    constructor; [|constructor]. exists (VStr "eth0"), VNone, VNone. reflexivity. }
  assert (Forall (fun kv => exists n i m,
                    Interface_init (AL := coercing_address_lib) n VNone i m =
                      Ok (ifaces defaults_store !!! snd kv))
            (registry defaults_net defaults_store)) as Hall'.
  { change (registry defaults_net defaults_store) with [("eth0", 1%positive)].
    constructor; [|constructor]. exists (VStr "eth0"), VNone, VNone. reflexivity. }
  assert (spec_IPAddr_eq (MkIPAddr 0) (VStr "0.0.0.0") <> Some true) as Hne
    by discriminate.
  split.
  - split; [split; [reflexivity | split; [exact Hall | exact Hne]]|].
    destruct (default_addresses_are_compared_as_str (AL := spec_address_lib)
                defaults_net defaults_store (VStr "0.0.0.0")) as (Hip & _).
    exact (proj2 (Hip (MkIPAddr 0) eq_refl Hall) Hne).
  - split; [split; [reflexivity | split; [exact Hall' | split; reflexivity]]|].
    destruct (default_addresses_are_compared_as_str (AL := coercing_address_lib)
                defaults_net defaults_store (VStr "00:00:00:00:00:00")) as (_ & Hmac).
    exact (proj1 (Hmac (MkEthAddr 0) eq_refl Hall') eq_refl "eth0" 1%positive []
             eq_refl).
Defined.
